(** * Secure music-copyright application: integrity and access-control pipeline

    A shallow embedding of the Python modules [checksum.py], [encryption.py],
    [user_manager.py], [database.py] and [artefact_manager.py], together with
    the properties of the artefact pipeline established on it.

    Conventions of the embedding:
    - Python [bytes] are [list byte]; Python [str] is [string]; Python [int]
      is [Z].
    - A Python call that may raise is a computation returning [result]:
      [Ok v] for a normal return, [Raise e] for an exception [e].
    - The operating system (files, console, clock, entropy pool) and the
      SQLite tables are fields of an explicit [world] that every operation of
      the artefact manager threads through. *)

From Stdlib Require Import ZArith List String Ascii Lia Bool.
From Stdlib.Strings Require Import Byte.
From stdpp Require Import gmap strings pretty.
Import ListNotations.

Local Open Scope Z_scope.

(** ** Bytes *)

#[global] Instance byte_eq_dec : EqDecision byte.
Proof.
  intros a b. destruct (N.eq_dec (Byte.to_N a) (Byte.to_N b)) as [E | E].
  - left. apply (f_equal Byte.of_N) in E. rewrite !Byte.of_to_N in E. congruence.
  - right. congruence.
Defined.

Module Bytes.

Definition to_Z (b : byte) : Z := Z.of_N (Byte.to_N b).

Definition of_Z (z : Z) : byte :=
  match Byte.of_N (Z.to_N (z mod 256)) with
  | Some b => b
  | None => x00
  end.

Definition xor (a b : byte) : byte := of_Z (Z.lxor (to_Z a) (to_Z b)).

(** [bytes(a ^ b for a, b in zip(xs, ys))]: stops at the shorter argument. *)
Fixpoint xor_list (xs ys : list byte) : list byte :=
  match xs, ys with
  | x :: xs', y :: ys' => xor x y :: xor_list xs' ys'
  | _, _ => []
  end.

(** Big-endian encoding of [z] on [n] bytes (the low [8n] bits of [z]). *)
Fixpoint be_encode (n : nat) (z : Z) : list byte :=
  match n with
  | O => []
  | S n' => of_Z (Z.shiftr z (8 * Z.of_nat n')) :: be_encode n' z
  end.

(** Big-endian decoding of a byte string to a non-negative integer. *)
Definition be_decode (bs : list byte) : Z :=
  fold_left (fun acc b => Z.lor (Z.shiftl acc 8) (to_Z b)) bs 0.

Definition zeros (n : nat) : list byte := repeat x00 n.

(** The bytes of an ASCII string literal, as [b"..."] in Python. *)
Fixpoint of_string (s : string) : list byte :=
  match s with
  | EmptyString => []
  | String c s' => byte_of_ascii c :: of_string s'
  end.

Definition hex_digit (n : Z) : ascii :=
  if n <? 10 then ascii_of_N (Z.to_N (48 + n)) else ascii_of_N (Z.to_N (87 + n)).

(** [bytes.hex()]: two lower-case hexadecimal digits per byte. *)
Fixpoint hex (bs : list byte) : string :=
  match bs with
  | [] => EmptyString
  | b :: bs' =>
      String (hex_digit (Z.shiftr (to_Z b) 4))
        (String (hex_digit (Z.land (to_Z b) 15)) (hex bs'))
  end.

End Bytes.

(** ** hashlib.sha256

    [checksum.py] and [user_manager.py] call [hashlib.sha256] of the Python
    standard library; it is modelled by the algorithm it implements
    (FIPS 180-4, section 6.2), on 32-bit words represented in [Z]. *)

Module SHA256.

Definition w32 (x : Z) : Z := x mod 2 ^ 32.
Definition add32 (x y : Z) : Z := w32 (x + y).
Definition rotr (n x : Z) : Z :=
  Z.lor (Z.shiftr x n) (w32 (Z.shiftl x (32 - n))).
Definition not32 (x : Z) : Z := Z.lxor x (2 ^ 32 - 1).

Definition Ch (x y z : Z) : Z := Z.lxor (Z.land x y) (Z.land (not32 x) z).
Definition Maj (x y z : Z) : Z :=
  Z.lxor (Z.lxor (Z.land x y) (Z.land x z)) (Z.land y z).
Definition Sigma0 (x : Z) : Z := Z.lxor (Z.lxor (rotr 2 x) (rotr 13 x)) (rotr 22 x).
Definition Sigma1 (x : Z) : Z := Z.lxor (Z.lxor (rotr 6 x) (rotr 11 x)) (rotr 25 x).
Definition sigma0 (x : Z) : Z := Z.lxor (Z.lxor (rotr 7 x) (rotr 18 x)) (Z.shiftr x 3).
Definition sigma1 (x : Z) : Z := Z.lxor (Z.lxor (rotr 17 x) (rotr 19 x)) (Z.shiftr x 10).

(** The round constants are the first 32 bits of the fractional parts of
    the cube roots of the first 64 primes; the initial hash value takes the
    square roots of the first 8 primes. *)
Definition is_prime (n : nat) : bool :=
  (1 <? n)%nat && forallb (fun d => negb (n mod d =? 0)%nat) (seq 2 (n - 2)).

Definition primes : list Z := map Z.of_nat (filter is_prime (seq 2 310)).

(** The largest [r] below [2 ^ bits] with [r ^ 3 <= n]. *)
Definition cube_root (bits : nat) (n : Z) : Z :=
  fold_left
    (fun r i => let r' := r + 2 ^ Z.of_nat i in if r' ^ 3 <=? n then r' else r)
    (rev (seq 0 bits)) 0.

Definition K : list Z :=
  Eval vm_compute in map (fun p => w32 (cube_root 36 (p * 2 ^ 96))) (firstn 64 primes).

(** The eight working variables / chaining values. *)
Record state := State
  { sa : Z; sb : Z; sc : Z; sd : Z; se : Z; sf : Z; sg : Z; sh : Z }.

Definition iv_word (i : nat) : Z :=
  w32 (Z.sqrt (nth i primes 0 * 2 ^ 64)).

Definition H0 : state :=
  Eval vm_compute in
    State (iv_word 0) (iv_word 1) (iv_word 2) (iv_word 3)
          (iv_word 4) (iv_word 5) (iv_word 6) (iv_word 7).

(** Padding: a [0x80] byte, zero bytes up to 56 modulo 64, then the message
    length in bits on 8 bytes. *)
Definition pad (msg : list byte) : list byte :=
  let len := Z.of_nat (List.length msg) in
  let k := Z.to_nat ((55 - len) mod 64) in
  msg ++ [x80] ++ Bytes.zeros k ++ Bytes.be_encode 8 (8 * len).

(** The [i]-th 32-bit big-endian word of a block. *)
Definition word_at (block : list byte) (i : nat) : Z :=
  Bytes.be_decode (firstn 4 (skipn (4 * i) block)).

Definition schedule (block : list byte) : list Z :=
  fold_left
    (fun W t =>
       W ++ [add32 (add32 (sigma1 (nth (t - 2) W 0)) (nth (t - 7) W 0))
                   (add32 (sigma0 (nth (t - 15) W 0)) (nth (t - 16) W 0))])
    (seq 16 48) (map (word_at block) (seq 0 16)).

Definition round (W : list Z) (s : state) (t : nat) : state :=
  let T1 := add32 (add32 (add32 (sh s) (Sigma1 (se s)))
                         (add32 (Ch (se s) (sf s) (sg s)) (nth t K 0)))
                  (nth t W 0) in
  let T2 := add32 (Sigma0 (sa s)) (Maj (sa s) (sb s) (sc s)) in
  State (add32 T1 T2) (sa s) (sb s) (sc s) (add32 (sd s) T1) (se s) (sf s) (sg s).

Definition compress (h : state) (block : list byte) : state :=
  let s := fold_left (round (schedule block)) (seq 0 64) h in
  State (add32 (sa h) (sa s)) (add32 (sb h) (sb s)) (add32 (sc h) (sc s))
        (add32 (sd h) (sd s)) (add32 (se h) (se s)) (add32 (sf h) (sf s))
        (add32 (sg h) (sg s)) (add32 (sh h) (sh s)).

Definition block_at (padded : list byte) (i : nat) : list byte :=
  firstn 64 (skipn (64 * i) padded).

Definition final_state (msg : list byte) : state :=
  let padded := pad msg in
  fold_left (fun h i => compress h (block_at padded i))
            (seq 0 (List.length padded / 64)) H0.

(** [hashlib.sha256(msg).digest()] *)
Definition digest (msg : list byte) : list byte :=
  let s := final_state msg in
  flat_map (Bytes.be_encode 4)
    [sa s; sb s; sc s; sd s; se s; sf s; sg s; sh s].

(** [hashlib.sha256(msg).hexdigest()] *)
Definition hexdigest (msg : list byte) : string := Bytes.hex (digest msg).

End SHA256.

(** ** AES (FIPS 197) and GCM (NIST SP 800-38D)

    [encryption.py] calls [cryptography]'s [AESGCM]; the primitive is
    modelled by the algorithms it implements.  Inside this module a byte is
    an integer in [0, 256). *)

Module AES.

Definition xtime (a : Z) : Z :=
  Z.land (Z.lxor (Z.shiftl a 1) (if Z.testbit a 7 then 0x1b else 0)) 0xff.

(** Multiplication in GF(2^8) modulo x^8 + x^4 + x^3 + x + 1. *)
Definition gmul (a b : Z) : Z :=
  fst (fold_left
         (fun '(acc, p) i => (if Z.testbit b (Z.of_nat i) then Z.lxor acc p else acc, xtime p))
         (seq 0 8) (0, a)).

Definition gpow (a : Z) (n : nat) : Z := Nat.iter n (gmul a) 1.

Definition rotl8 (b n : Z) : Z :=
  Z.land (Z.lor (Z.shiftl b n) (Z.shiftr b (8 - n))) 0xff.

Definition sbox_of (a : Z) : Z :=
  let b := gpow a 254 in
  Z.lxor (Z.lxor (Z.lxor (Z.lxor (Z.lxor b (rotl8 b 1)) (rotl8 b 2)) (rotl8 b 3)) (rotl8 b 4)) 0x63.

Definition sbox_table : list Z :=
  Eval vm_compute in map (fun i => sbox_of (Z.of_nat i)) (seq 0 256).

Definition sbox (a : Z) : Z := nth (Z.to_nat a) sbox_table 0.

Definition rcon (i : nat) : Z := Nat.iter (i - 1) xtime 1.

Definition xor4 (u v : list Z) : list Z := map (fun '(a, b) => Z.lxor a b) (combine u v).

Definition rot_word (w : list Z) : list Z := skipn 1 w ++ firstn 1 w.
Definition sub_word (w : list Z) : list Z := map sbox w.

(** Key expansion for [Nk] in {4, 6, 8}: the list of [4 * (Nk + 7)] words. *)
Definition key_expansion (key : list Z) : list (list Z) :=
  let Nk := (List.length key / 4)%nat in
  let w0 := map (fun i => firstn 4 (skipn (4 * i) key)) (seq 0 Nk) in
  fold_left
    (fun w i =>
       let prev := nth (i - 1) w [] in
       let temp :=
         if (i mod Nk =? 0)%nat then
           xor4 (sub_word (rot_word prev)) [rcon (i / Nk); 0; 0; 0]
         else if ((6 <? Nk) && (i mod Nk =? 4))%nat then sub_word prev
         else prev in
       w ++ [xor4 (nth (i - Nk) w []) temp])
    (seq Nk (4 * (Nk + 7) - Nk)) w0.

Definition round_key (w : list (list Z)) (r : nat) : list Z :=
  concat (firstn 4 (skipn (4 * r) w)).

Definition add_round_key (s k : list Z) : list Z :=
  map (fun i => Z.lxor (nth i s 0) (nth i k 0)) (seq 0 16).

Definition sub_bytes (s : list Z) : list Z := map sbox s.

(** The state is stored column by column: byte [r + 4c] is row [r], column [c]. *)
Definition shift_rows (s : list Z) : list Z :=
  map (fun i => let r := (i mod 4)%nat in let c := (i / 4)%nat in
                nth (r + 4 * ((c + r) mod 4)) s 0) (seq 0 16).

Definition mix_column (col : list Z) : list Z :=
  let a := fun i => nth i col 0 in
  [ Z.lxor (Z.lxor (Z.lxor (gmul (a 0%nat) 2) (gmul (a 1%nat) 3)) (a 2%nat)) (a 3%nat);
    Z.lxor (Z.lxor (Z.lxor (a 0%nat) (gmul (a 1%nat) 2)) (gmul (a 2%nat) 3)) (a 3%nat);
    Z.lxor (Z.lxor (Z.lxor (a 0%nat) (a 1%nat)) (gmul (a 2%nat) 2)) (gmul (a 3%nat) 3);
    Z.lxor (Z.lxor (Z.lxor (gmul (a 0%nat) 3) (a 1%nat)) (a 2%nat)) (gmul (a 3%nat) 2) ].

Definition mix_columns (s : list Z) : list Z :=
  flat_map (fun c => mix_column (firstn 4 (skipn (4 * c) s))) (seq 0 4).

(** The forward cipher on one 16-byte block, [Nr = Nk + 6] rounds. *)
Definition cipher (key block : list Z) : list Z :=
  let Nr := (List.length key / 4 + 6)%nat in
  let w := key_expansion key in
  let s0 := add_round_key block (round_key w 0) in
  let s := fold_left
             (fun s r => add_round_key (mix_columns (shift_rows (sub_bytes s))) (round_key w r))
             (seq 1 (Nr - 1)) s0 in
  add_round_key (shift_rows (sub_bytes s)) (round_key w Nr).

Definition encrypt_block (key block : list byte) : list byte :=
  map Bytes.of_Z (cipher (map Bytes.to_Z key) (map Bytes.to_Z block)).

End AES.

Module GCM.

(** Multiplication of two 128-bit blocks in GF(2^128), SP 800-38D Algorithm 1;
    bit 0 of a block is its most significant bit. *)
Definition R : Z := Z.shiftl 0xe1 120.

Definition gf_mul (X Y : Z) : Z :=
  fst (fold_left
         (fun '(acc, V) i =>
            (if Z.testbit X (127 - Z.of_nat i) then Z.lxor acc V else acc,
             if Z.testbit V 0 then Z.lxor (Z.shiftr V 1) R else Z.shiftr V 1))
         (seq 0 128) (0, Y)).

Definition pad16 (bs : list byte) : list byte :=
  bs ++ Bytes.zeros ((16 - List.length bs mod 16) mod 16).

(** GHASH of a byte string whose length is a multiple of 16. *)
Definition ghash (H : Z) (data : list byte) : Z :=
  fold_left
    (fun Y i => gf_mul (Z.lxor Y (Bytes.be_decode (firstn 16 (skipn (16 * i) data)))) H)
    (seq 0 (List.length data / 16)) 0.

(** The [i]-th counter block after [cb]: the low 32 bits are incremented
    modulo 2^32, the high 96 bits are kept. *)
Definition inc32_by (cb : list byte) (i : nat) : list byte :=
  firstn 12 cb ++
  Bytes.be_encode 4 ((Bytes.be_decode (skipn 12 cb) + Z.of_nat i) mod 2 ^ 32).

Definition keystream (key icb : list byte) (n : nat) : list byte :=
  flat_map (fun i => AES.encrypt_block key (inc32_by icb i)) (seq 0 ((n + 15) / 16)).

(** GCTR: the input xored with the keystream, truncated to the input. *)
Definition gctr (key icb data : list byte) : list byte :=
  Bytes.xor_list data (keystream key icb (List.length data)).

Definition hash_subkey (key : list byte) : Z :=
  Bytes.be_decode (AES.encrypt_block key (Bytes.zeros 16)).

Definition j0 (key iv : list byte) : list byte :=
  if (List.length iv =? 12)%nat then iv ++ [x00; x00; x00; x01]
  else Bytes.be_encode 16
         (ghash (hash_subkey key)
            (pad16 iv ++ Bytes.zeros 8 ++ Bytes.be_encode 8 (8 * Z.of_nat (List.length iv)))).

Definition tag (key iv aad ct : list byte) : list byte :=
  let S := ghash (hash_subkey key)
             (pad16 aad ++ pad16 ct
              ++ Bytes.be_encode 8 (8 * Z.of_nat (List.length aad))
              ++ Bytes.be_encode 8 (8 * Z.of_nat (List.length ct))) in
  Bytes.xor_list (AES.encrypt_block key (j0 key iv)) (Bytes.be_encode 16 S).

(** Authenticated encryption: ciphertext followed by the 16-byte tag. *)
Definition ae (key iv plaintext aad : list byte) : list byte :=
  let ct := gctr key (inc32_by (j0 key iv) 1) plaintext in
  ct ++ tag key iv aad ct.

(** Authenticated decryption of [ct ++ tag]; [None] when the tag does not
    verify (or the input is shorter than a tag). *)
Definition ad (key iv data aad : list byte) : option (list byte) :=
  if (List.length data <? 16)%nat then None
  else
    let n := (List.length data - 16)%nat in
    let ct := firstn n data in
    let t := skipn n data in
    if decide (t = tag key iv aad ct)
    then Some (gctr key (inc32_by (j0 key iv) 1) ct)
    else None.

End GCM.

(** ** Exceptions, results and the world *)

Inductive exn :=
| ValueError (msg : string)
| FileNotFoundError (msg : string)
| IsADirectoryError (msg : string)
| IntegrityError (msg : string)   (* sqlite3.IntegrityError *)
| InvalidTag.                     (* cryptography.exceptions.InvalidTag *)

(** [str(e)] *)
Definition exn_str (e : exn) : string :=
  match e with
  | ValueError m | FileNotFoundError m | IsADirectoryError m | IntegrityError m => m
  | InvalidTag => ""
  end.

(** [type(e).__name__] *)
Definition exn_type_name (e : exn) : string :=
  match e with
  | ValueError _ => "ValueError"
  | FileNotFoundError _ => "FileNotFoundError"
  | IsADirectoryError _ => "IsADirectoryError"
  | IntegrityError _ => "IntegrityError"
  | InvalidTag => "InvalidTag"
  end.

Inductive result (A : Type) :=
| Ok (a : A)
| Raise (e : exn).
Arguments Ok {A} a.
Arguments Raise {A} e.

(** The entropy pool behind [os.urandom]: an unbounded tape of bytes and the
    position of the next unread byte. *)
Record entropy_pool := EntropyPool { tape : nat -> byte; cursor : nat }.

Definition urandom (n : nat) (e : entropy_pool) : list byte * entropy_pool :=
  (map (tape e) (seq (cursor e) n), EntropyPool (tape e) (cursor e + n)).

(** *** The rows of the two SQLite tables *)

Record user_row := UserRow
  { ur_user_id : Z; ur_username : string; ur_password_hash : string;
    ur_role : string }.

Record artefact_row := ArtefactRow
  { artefact_id : Z; owner_id : Z; artefact_name : string;
    artefact_type : string; file_path : string;
    encrypted_data : list byte; checksum : string;
    created_at : string; modified_at : option string }.

(** Tables are keyed by their INTEGER PRIMARY KEY AUTOINCREMENT column; the
    [_seq] fields are the largest key ever handed out. *)
Record database := Database
  { users : gmap Z user_row; users_seq : Z;
    artefacts : gmap Z artefact_row; artefacts_seq : Z }.

Inductive fs_node :=
| FsFile (content : list byte)
| FsDir.

(** The two observer classes of [artefact_manager.py]; [obs_ident] stands
    for the identity of the Python object. *)
Inductive observer_class := ArtefactObserver | TimestampObserver.
Record observer := Observer { obs_class : observer_class; obs_ident : nat }.

(** One call [observer.on_artefact_modified(artefact_id, timestamp)]. *)
Record notification := Notification
  { n_observer : observer; n_artefact_id : Z; n_timestamp : string }.

Record world := World
  { fs : gmap string fs_node;            (* files and directories by path *)
    console : list string;               (* what [print] has written *)
    clock : nat -> string;               (* successive datetime.now().isoformat() *)
    ticks : nat;                         (* number of clock readings so far *)
    pool : entropy_pool;                 (* os.urandom *)
    db : database;                       (* the singleton DatabaseManager *)
    notified : list notification }.      (* observer calls made so far *)

Definition set_fs (f : gmap string fs_node) (w : world) : world :=
  World f (console w) (clock w) (ticks w) (pool w) (db w) (notified w).
Definition set_console (c : list string) (w : world) : world :=
  World (fs w) c (clock w) (ticks w) (pool w) (db w) (notified w).
Definition set_ticks (t : nat) (w : world) : world :=
  World (fs w) (console w) (clock w) t (pool w) (db w) (notified w).
Definition set_pool (p : entropy_pool) (w : world) : world :=
  World (fs w) (console w) (clock w) (ticks w) p (db w) (notified w).
Definition set_db (d : database) (w : world) : world :=
  World (fs w) (console w) (clock w) (ticks w) (pool w) d (notified w).
Definition set_notified (n : list notification) (w : world) : world :=
  World (fs w) (console w) (clock w) (ticks w) (pool w) (db w) n.

(** *** Computations that read and write the world and may raise *)

Definition io (A : Type) : Type := world -> result A * world.

Definition ret {A : Type} (a : A) : io A := fun w => (Ok a, w).

(** Sequencing: an exception raised by [m] skips [f] and keeps the world
    [m] has reached. *)
Definition bind {A B : Type} (m : io A) (f : A -> io B) : io B :=
  fun w =>
    match m w with
    | (Ok a, w') => f a w'
    | (Raise e, w') => (Raise e, w')
    end.

Notation "x <- m ;; k" := (bind m (fun x => k))
  (at level 100, m at next level, right associativity).

Definition raise {A : Type} (e : exn) : io A := fun w => (Raise e, w).

(** [try: body  except Exception as e: handler(e)] *)
Definition try_except {A : Type} (body : io A) (handler : exn -> io A) : io A :=
  fun w =>
    match body w with
    | (Ok a, w') => (Ok a, w')
    | (Raise e, w') => handler e w'
    end.

Definition lift_result {A : Type} (r : result A) : io A := fun w => (r, w).

Definition print (line : string) : io unit :=
  fun w => (Ok tt, set_console (console w ++ [line]) w).

(** [datetime.now().isoformat()] *)
Definition now_isoformat : io string :=
  fun w => (Ok (clock w (ticks w)), set_ticks (S (ticks w)) w).

(** [os.path.exists(path)] *)
Definition path_exists (path : string) : io bool :=
  fun w => (Ok (bool_decide (is_Some (fs w !! path))), w).

(** A path names at most one node of [fs].  A path containing the NUL
    character names none, and [open] refuses it with a [ValueError] instead
    of looking it up; that refusal is not part of the model, and statements
    about opening a path that is absent carry [nul_free] as a hypothesis. *)
Definition nul_free (path : string) : Prop :=
  Ascii.zero ∉ list_ascii_of_string path.

(** [with open(path, 'rb') as f: f.read()] *)
Definition read_file (path : string) : io (list byte) :=
  fun w =>
    match fs w !! path with
    | Some (FsFile content) => (Ok content, w)
    | Some FsDir =>
        (Raise (IsADirectoryError ("[Errno 21] Is a directory: '" +:+ path +:+ "'")), w)
    | None =>
        (Raise (FileNotFoundError
                  ("[Errno 2] No such file or directory: '" +:+ path +:+ "'")), w)
    end.

(** [with open(path, 'wb') as f: f.write(data)]: creates or truncates the
    file; a directory cannot be opened for writing.  Paths are opaque names:
    access rights and missing parent directories are not modelled. *)
Definition write_file (path : string) (data : list byte) : io unit :=
  fun w =>
    match fs w !! path with
    | Some FsDir =>
        (Raise (IsADirectoryError ("[Errno 21] Is a directory: '" +:+ path +:+ "'")), w)
    | _ => (Ok tt, set_fs (<[path := FsFile data]> (fs w)) w)
    end.

(** ** checksum.py *)

Module ChecksumManager.

Definition calculate_checksum (data : list byte) : string :=
  SHA256.hexdigest data.

Definition verify_checksum (data : list byte) (expected_checksum : string) : bool :=
  let calculated_checksum := calculate_checksum data in
  bool_decide (calculated_checksum = expected_checksum).

(** The two handlers catch [FileNotFoundError] and [IOError] (of which
    [IsADirectoryError] is a subclass); any other exception propagates, as
    does the [ValueError] of [open] on a path with a NUL character, which
    [read_file] leaves out (see [nul_free]). *)
Definition calculate_file_checksum (path : string) : io (option string) :=
  try_except
    (file_data <- read_file path ;; ret (Some (calculate_checksum file_data)))
    (fun e =>
       match e with
       | FileNotFoundError _ | IsADirectoryError _ => ret None
       | _ => raise e
       end).

End ChecksumManager.

(** ** encryption.py *)

(** The class [AESGCM] of the [cryptography] package, as [encryption.py]
    uses it: construction checks the key length, both operations check the
    nonce length, decryption raises [InvalidTag] when the tag does not
    verify.  The package's bound on the data size (2^31 - 1 bytes) is not
    part of the model. *)
Module AESGCM.

Definition new (key : list byte) : result (list byte) :=
  let n := List.length key in
  if ((n =? 16) || (n =? 24) || (n =? 32))%nat then Ok key
  else Raise (ValueError "AESGCM key must be 128, 192, or 256 bits.").

Definition check_nonce (nonce : list byte) : result unit :=
  let n := List.length nonce in
  if ((n <? 8) || (128 <? n))%nat
  then Raise (ValueError "Nonce must be between 8 and 128 bytes")
  else Ok tt.

Definition associated (aad : option (list byte)) : list byte :=
  match aad with Some a => a | None => [] end.

Definition encrypt (key nonce data : list byte) (aad : option (list byte))
  : result (list byte) :=
  match check_nonce nonce with
  | Raise e => Raise e
  | Ok _ => Ok (GCM.ae key nonce data (associated aad))
  end.

Definition decrypt (key nonce data : list byte) (aad : option (list byte))
  : result (list byte) :=
  match check_nonce nonce with
  | Raise e => Raise e
  | Ok _ =>
      match GCM.ad key nonce data (associated aad) with
      | Some plaintext => Ok plaintext
      | None => Raise InvalidTag
      end
  end.

End AESGCM.

(** The strategy interface: the two methods of [EncryptionStrategy]. *)
Record EncryptionStrategy := Strategy
  { encrypt : list byte -> list byte -> entropy_pool -> result (list byte) * entropy_pool;
    decrypt : list byte -> list byte -> result (list byte) }.

Module AES256GCMStrategy.

Definition encrypt (data key : list byte) (e : entropy_pool)
  : result (list byte) * entropy_pool :=
  let '(nonce, e') := urandom 12 e in
  match AESGCM.new key with
  | Raise err => (Raise err, e')
  | Ok aesgcm =>
      match AESGCM.encrypt aesgcm nonce data None with
      | Raise err => (Raise err, e')
      | Ok ciphertext => (Ok (nonce ++ ciphertext), e')
      end
  end.

Definition decrypt (encrypted_data key : list byte) : result (list byte) :=
  let nonce := firstn 12 encrypted_data in
  let ciphertext := skipn 12 encrypted_data in
  match AESGCM.new key with
  | Raise err => Raise err
  | Ok aesgcm => AESGCM.decrypt aesgcm nonce ciphertext None
  end.

Definition make : EncryptionStrategy := Strategy encrypt decrypt.

End AES256GCMStrategy.

Module EncryptionFactory.

Definition create_algorithm (algorithm_name : string) : result EncryptionStrategy :=
  if bool_decide (algorithm_name = "AES256GCM") then Ok AES256GCMStrategy.make
  else Raise (ValueError "encryption type not supported").

End EncryptionFactory.

(** HMAC-SHA256 (RFC 2104) and PBKDF2 (RFC 8018) with a derived key of one
    hash length, as [hashlib.pbkdf2_hmac('sha256', ...)] computes them. *)
Module PBKDF2.

Definition hmac_sha256 (key msg : list byte) : list byte :=
  let k0 := if (64 <? List.length key)%nat then SHA256.digest key else key in
  let k := k0 ++ Bytes.zeros (64 - List.length k0) in
  SHA256.digest (map (Bytes.xor x5c) k
                 ++ SHA256.digest (map (Bytes.xor x36) k ++ msg)).

Definition pbkdf2_hmac_sha256 (password salt : list byte) (iterations : nat)
  : list byte :=
  let u1 := hmac_sha256 password (salt ++ Bytes.be_encode 4 1) in
  fst (Nat.iter (iterations - 1)
         (fun '(t, u) => let u' := hmac_sha256 password u in (Bytes.xor_list t u', u'))
         (u1, u1)).

End PBKDF2.

Record EncryptionManager := EncMgr
  { strategy : EncryptionStrategy; _key : option (list byte) }.

Module EncryptionManager.

(** [EncryptionManager(algorithm_name)] *)
Definition new (algorithm_name : string) : result EncryptionManager :=
  match EncryptionFactory.create_algorithm algorithm_name with
  | Raise e => Raise e
  | Ok st => Ok (EncMgr st None)
  end.

Definition generate_key (m : EncryptionManager) (e : entropy_pool)
  : list byte * EncryptionManager * entropy_pool :=
  let '(k, e') := urandom 32 e in (k, EncMgr (strategy m) (Some k), e').

(** [set_key] returns the manager after the call; when it raises, the
    manager is left as it was. *)
Definition set_key (key : list byte) (m : EncryptionManager) : result EncryptionManager :=
  if negb (List.length key =? 32)%nat then Raise (ValueError "key must be 32 bytes")
  else Ok (EncMgr (strategy m) (Some key)).

Definition get_key (m : EncryptionManager) : option (list byte) := _key m.

Definition derive_key_from_password (password : string) (m : EncryptionManager)
  : list byte * EncryptionManager :=
  let salt := Bytes.of_string "music_copyright_salt" in
  let key := PBKDF2.pbkdf2_hmac_sha256 (Bytes.of_string password) salt (Z.to_nat 100000) in
  (firstn 32 key, EncMgr (strategy m) (Some (firstn 32 key))).

Definition encrypt_data (m : EncryptionManager) (data : list byte) (e : entropy_pool)
  : result (list byte) * entropy_pool :=
  match _key m with
  | None => (Raise (ValueError "need to set key first"), e)
  | Some k => encrypt (strategy m) data k e
  end.

Definition decrypt_data (m : EncryptionManager) (encrypted_data : list byte)
  : result (list byte) :=
  match _key m with
  | None => Raise (ValueError "need to set key first")
  | Some k => decrypt (strategy m) encrypted_data k
  end.

End EncryptionManager.

(** ** user_manager.py: the two principal classes *)

Inductive user_class := ClassUser | ClassAdminUser.

Record User := MkUser
  { class_of : user_class; _user_id : Z; _username : string; _role : string }.

Definition can_view_artefact (u : User) (artefact_owner_id : Z) : bool := true.

Definition can_modify_artefact (u : User) (artefact_owner_id : Z) : bool :=
  match class_of u with
  | ClassUser => _user_id u =? artefact_owner_id
  | ClassAdminUser => true
  end.

Definition can_delete_artefact (u : User) (artefact_owner_id : Z) : bool :=
  match class_of u with
  | ClassUser => _user_id u =? artefact_owner_id
  | ClassAdminUser => true
  end.

(** ** database.py: the operations of [DatabaseManager] on the tables *)

(** An integer bound to a parameter of an SQL statement has to lie in
    SQLite's signed 64-bit range; outside it [sqlite3] raises
    [OverflowError] before the statement runs.  That error is not part of
    the model: the operations below are those on integers SQLite can hold.
    A statement about what an operation returns for an identifier under
    which no row need be stored carries [in_int64] of that identifier as a
    hypothesis; an identifier under which a row is stored is one SQLite
    holds. *)
Definition in_int64 (z : Z) : Prop := - 2 ^ 63 <= z < 2 ^ 63.

(** The row after [SET encrypted_data = ?, checksum = ?, modified_at = ?]. *)
Definition updated_row (r : artefact_row) (data : list byte) (digest : string)
    (stamp : string) : artefact_row :=
  ArtefactRow (artefact_id r) (owner_id r) (artefact_name r) (artefact_type r)
    (file_path r) data digest (created_at r) (Some stamp).

Module DatabaseManager.

Definition update_db (f : database -> database) : io unit :=
  fun w => (Ok tt, set_db (f (db w)) w).

(** [INSERT INTO users]: the UNIQUE constraint on [username] and the CHECK
    constraint on [role] raise [sqlite3.IntegrityError], which the method
    turns into a [ValueError]. *)
Definition create_user (username password_hash role : string) : io Z :=
  fun w =>
    let d := db w in
    if bool_decide (map_Exists (fun _ r => ur_username r = username) (users d))
       || negb (bool_decide (role ∈ ["admin"; "user"]))
    then (Raise (ValueError "username already exists"), w)
    else
      let uid := users_seq d + 1 in
      (Ok uid,
       set_db (Database (<[uid := UserRow uid username password_hash role]> (users d))
                        uid (artefacts d) (artefacts_seq d)) w).

Definition get_user (username : string) : io (option user_row) :=
  fun w =>
    (Ok (snd <$> head (filter (fun p => bool_decide (ur_username (snd p) = username))
                        (map_to_list (users (db w))))), w).

Definition get_user_by_id (user_id : Z) : io (option user_row) :=
  fun w => (Ok (users (db w) !! user_id), w).

(** [INSERT INTO artefacts]; [modified_at] is left NULL. *)
Definition create_artefact (owner artefact_name artefact_type file_path : _)
    (encrypted_data : list byte) (checksum : string) : io Z :=
  created_at <- now_isoformat ;;
  fun w =>
    let d := db w in
    if negb (bool_decide (artefact_type ∈ ["lyrics"; "score"; "audio"]))
    then (Raise (IntegrityError "CHECK constraint failed: artefacts"), w)
    else
      let aid := artefacts_seq d + 1 in
      (Ok aid,
       set_db (Database (users d) (users_seq d)
                 (<[aid := ArtefactRow aid owner artefact_name artefact_type file_path
                             encrypted_data checksum created_at None]> (artefacts d))
                 aid) w).

Definition get_artefact (artefact_id : Z) : io (option artefact_row) :=
  fun w => (Ok (artefacts (db w) !! artefact_id), w).

(** [UPDATE artefacts SET encrypted_data, checksum, modified_at WHERE
    artefact_id = ?]; the result is [rowcount > 0]. *)
Definition update_artefact (artefact_id : Z) (encrypted_data : list byte)
    (checksum : string) : io bool :=
  modified_at <- now_isoformat ;;
  fun w =>
    let d := db w in
    match artefacts d !! artefact_id with
    | None => (Ok false, w)
    | Some r =>
        (Ok true,
         set_db (Database (users d) (users_seq d)
                   (<[artefact_id := updated_row r encrypted_data checksum modified_at]>
                      (artefacts d))
                   (artefacts_seq d)) w)
    end.

Definition delete_artefact (artefact_id : Z) : io bool :=
  fun w =>
    let d := db w in
    match artefacts d !! artefact_id with
    | None => (Ok false, w)
    | Some _ =>
        (Ok true,
         set_db (Database (users d) (users_seq d) (delete artefact_id (artefacts d))
                   (artefacts_seq d)) w)
    end.

(** Deletes the user's artefacts, then the user; the result is the row
    count of the second statement. *)
Definition delete_user (user_id : Z) : io bool :=
  fun w =>
    let d := db w in
    (Ok (bool_decide (is_Some (users d !! user_id))),
     set_db (Database (delete user_id (users d)) (users_seq d)
               (filter (fun p => owner_id (snd p) ≠ user_id) (artefacts d))
               (artefacts_seq d)) w).

End DatabaseManager.

(** ** user_manager.py: registration and login *)

Module UserManager.

Definition hash_password (password : string) : string :=
  SHA256.hexdigest (Bytes.of_string password).

Definition register_user (username password role : string) : io User :=
  if negb (bool_decide (role ∈ ["admin"; "user"]))
  then raise (ValueError "role must be 'admin' or 'user'")
  else
    let password_hash := hash_password password in
    user_id <- DatabaseManager.create_user username password_hash role ;;
    if bool_decide (role = "admin")
    then ret (MkUser ClassAdminUser user_id username role)
    else ret (MkUser ClassUser user_id username role).

Definition login (username password : string) : io (option User) :=
  user_data <- DatabaseManager.get_user username ;;
  match user_data with
  | None => ret None
  | Some u =>
      let password_hash := hash_password password in
      if negb (bool_decide (ur_password_hash u = password_hash)) then ret None
      else if bool_decide (ur_role u = "admin")
      then ret (Some (MkUser ClassAdminUser (ur_user_id u) (ur_username u) (ur_role u)))
      else ret (Some (MkUser ClassUser (ur_user_id u) (ur_username u) (ur_role u)))
  end.

End UserManager.

(** ** artefact_manager.py *)

Record ArtefactManager := ArtMgr
  { encryption : EncryptionManager;   (* self.encryption *)
    observers : list observer }.      (* self.observers, in registration order *)

(** The metadata dictionary returned by [read_artefact]. *)
Record artefact_info := ArtefactInfo
  { i_artefact_id : Z; i_artefact_name : string; i_artefact_type : string;
    i_created_at : string; i_modified_at : option string; i_checksum : string }.

Definition info_of_row (a : artefact_row) : artefact_info :=
  ArtefactInfo (artefact_id a) (artefact_name a) (artefact_type a) (created_at a)
    (modified_at a) (checksum a).

Definition nl : string := String (ascii_of_nat 10) EmptyString.

(** ['=' * 60] *)
Definition rule : string := String.concat "" (repeat "=" 60%nat).

Fixpoint for_each {A : Type} (f : A -> io unit) (l : list A) : io unit :=
  match l with
  | [] => ret tt
  | x :: l' => _ <- f x ;; for_each f l'
  end.

(** Both observer classes have the body [pass]; the call itself is recorded
    in [notified]. *)
Definition on_artefact_modified (o : observer) (artefact_id : Z) (timestamp : string)
  : io unit :=
  fun w =>
    let w' := set_notified (notified w ++ [Notification o artefact_id timestamp]) w in
    match obs_class o with
    | ArtefactObserver => (Ok tt, w')
    | TimestampObserver => (Ok tt, w')
    end.

Module ArtefactManager.

Definition add_observer (o : observer) (m : ArtefactManager) : ArtefactManager :=
  ArtMgr (encryption m) (observers m ++ [o]).

Definition _notify_observers (m : ArtefactManager) (artefact_id : Z) (timestamp : string)
  : io unit :=
  for_each (fun o => on_artefact_modified o artefact_id timestamp) (observers m).

Definition encrypt_data (m : ArtefactManager) (data : list byte) : io (list byte) :=
  fun w =>
    let '(r, p) := EncryptionManager.encrypt_data (encryption m) data (pool w) in
    (r, set_pool p w).

Definition decrypt_data (m : ArtefactManager) (data : list byte) : io (list byte) :=
  lift_result (EncryptionManager.decrypt_data (encryption m) data).

Definition create_artefact (m : ArtefactManager) (owner : User)
    (file_path artefact_name artefact_type : string) : io (option Z) :=
  if negb (bool_decide (artefact_type ∈ ["lyrics"; "score"; "audio"]))
  then raise (ValueError "Artefact type must be 'lyrics', 'score', or 'audio'")
  else
    present <- path_exists file_path ;;
    if negb present then raise (FileNotFoundError ("File not found: " +:+ file_path))
    else
      try_except
        (file_data <- read_file file_path ;;
         let checksum := ChecksumManager.calculate_checksum file_data in
         encrypted_data <- encrypt_data m file_data ;;
         _ <- print (nl +:+ rule) ;;
         _ <- print "FILE UPLOAD VERIFICATION" ;;
         _ <- print rule ;;
         _ <- print ("Original file size:   " +:+ pretty (List.length file_data) +:+ " bytes") ;;
         _ <- print ("Encrypted data size:  " +:+ pretty (List.length encrypted_data) +:+ " bytes") ;;
         _ <- print ("Checksum calculated:  " +:+ substring 0 32 checksum +:+ "...") ;;
         _ <- print "File encrypted and checksum stored" ;;
         _ <- print rule ;;
         artefact_id <- DatabaseManager.create_artefact (_user_id owner) artefact_name
                          artefact_type file_path encrypted_data checksum ;;
         ret (Some artefact_id))
        (fun e => _ <- print ("Error creating artefact: " +:+ exn_str e) ;; ret None).

Definition read_artefact (m : ArtefactManager) (artefact_id : Z) (user : User)
  : io (option artefact_info) :=
  artefact <- DatabaseManager.get_artefact artefact_id ;;
  match artefact with
  | None => ret None
  | Some a =>
      if negb (can_view_artefact user (owner_id a)) then ret None
      else ret (Some (info_of_row a))
  end.

Definition get_artefact_data (m : ArtefactManager) (artefact_id : Z) (user : User)
    (output_path : option string) : io (option (list byte)) :=
  artefact <- DatabaseManager.get_artefact artefact_id ;;
  match artefact with
  | None => ret None
  | Some a =>
      if negb (can_view_artefact user (owner_id a)) then ret None
      else
        try_except
          (decrypted_data <- decrypt_data m (encrypted_data a) ;;
           let calculated_checksum := ChecksumManager.calculate_checksum decrypted_data in
           _ <- print (nl +:+ rule) ;;
           _ <- print "VERIFICATION: Encryption/Decryption Check" ;;
           _ <- print rule ;;
           _ <- print ("Encrypted data size: " +:+ pretty (List.length (encrypted_data a)) +:+ " bytes") ;;
           _ <- print ("Decrypted data size: " +:+ pretty (List.length decrypted_data) +:+ " bytes") ;;
           _ <- print ("Stored checksum:     " +:+ substring 0 32 (checksum a) +:+ "...") ;;
           _ <- print ("Calculated checksum: " +:+ substring 0 32 calculated_checksum +:+ "...") ;;
           if negb (bool_decide (calculated_checksum = checksum a)) then
             _ <- print "WARNING: Checksum mismatch! Data may have been tampered with." ;;
             _ <- print rule ;;
             ret None
           else
             _ <- print "Checksum verification: PASSED" ;;
             _ <- print "Original file = Decrypted file (verified by checksum)" ;;
             _ <- print rule ;;
             _ <- match output_path with
                  | Some p => if bool_decide (p = "") then ret tt else write_file p decrypted_data
                  | None => ret tt
                  end ;;
             ret (Some decrypted_data))
          (fun e =>
             let error_msg := if bool_decide (exn_str e = "") then exn_type_name e else exn_str e in
             _ <- print ("Error retrieving artefact: " +:+ error_msg) ;;
             ret None)
  end.

Definition update_artefact (m : ArtefactManager) (artefact_id : Z) (new_file_path : string)
    (user : User) : io bool :=
  artefact <- DatabaseManager.get_artefact artefact_id ;;
  match artefact with
  | None => ret false
  | Some a =>
      if negb (can_modify_artefact user (owner_id a)) then
        _ <- print "Permission denied: You can only modify your own artefacts." ;;
        ret false
      else
        present <- path_exists new_file_path ;;
        if negb present then raise (FileNotFoundError ("File not found: " +:+ new_file_path))
        else
          try_except
            (file_data <- read_file new_file_path ;;
             let checksum := ChecksumManager.calculate_checksum file_data in
             encrypted_data <- encrypt_data m file_data ;;
             success <- DatabaseManager.update_artefact artefact_id encrypted_data checksum ;;
             _ <- (if success : bool then
                     timestamp <- now_isoformat ;;
                     _notify_observers m artefact_id timestamp
                   else ret tt) ;;
             ret success)
            (fun e => _ <- print ("Error updating artefact: " +:+ exn_str e) ;; ret false)
  end.

Definition delete_artefact (m : ArtefactManager) (artefact_id : Z) (user : User) : io bool :=
  artefact <- DatabaseManager.get_artefact artefact_id ;;
  match artefact with
  | None => ret false
  | Some a =>
      if negb (can_delete_artefact user (owner_id a)) then
        _ <- print "Permission denied: You can only delete your own artefacts." ;;
        ret false
      else DatabaseManager.delete_artefact artefact_id
  end.

End ArtefactManager.

(** ** Auxiliary predicates and example data *)

(** Parses a string of lower-case hexadecimal digits. *)
Definition unhex (s : string) : list byte :=
  let fix go (s : string) : list byte :=
    match s with
    | String a (String b s') =>
        let d := fun (c : ascii) =>
          let n := Z.of_N (N_of_ascii c) in if n <? 58 then n - 48 else n - 87 in
        Bytes.of_Z (16 * d a + d b) :: go s'
    | _ => []
    end in go s.


Definition is_hex_digit (c : ascii) : bool :=
  bool_decide (c ∈ list_ascii_of_string "0123456789abcdef").

(** An operation is recovered at the manager boundary when it returns a
    value to its caller instead of raising. *)
Definition returns_normally {A : Type} (c : io A) (w : world) : Prop :=
  exists v, fst (c w) = Ok v.

Definition never_raises {A : Type} (c : io A) : Prop :=
  forall w, returns_normally c w.

(** A computation preserves an observation [f] of the world when [f] reads
    the same before and after it, whether it returns or raises. *)
Definition preserves {A B : Type} (f : world -> B) (c : io A) : Prop :=
  forall w, f (snd (c w)) = f w.

(** The two misconfiguration errors of [EncryptionManager], as raised. *)
Definition NoKeySet : exn := ValueError "need to set key first".
Definition InvalidKeyLength : exn := ValueError "key must be 32 bytes".

(** The line [get_artefact_data] prints when its guarded body raises [e]. *)
Definition retrieval_error_line (e : exn) : string :=
  "Error retrieving artefact: "
  +:+ (if bool_decide (exn_str e = "") then exn_type_name e else exn_str e).

(** The console lines by which the two refusals of [get_artefact_data] are
    told apart. *)
Definition authentication_failure_line : string :=
  "Error retrieving artefact: InvalidTag".
Definition integrity_violation_line : string :=
  "WARNING: Checksum mismatch! Data may have been tampered with.".

(** The world a successful update leaves: the row carries the new payload,
    the new digest and the first clock reading; every observer has been
    called with the second clock reading. *)
Definition after_update (m : ArtefactManager) (id : Z) (a : artefact_row)
    (data payload : list byte) (p : entropy_pool) (w : world) : world :=
  World (fs w) (console w) (clock w) (S (S (ticks w))) p
    (Database (users (db w)) (users_seq (db w))
       (<[id := updated_row a payload (ChecksumManager.calculate_checksum data)
                  (clock w (ticks w))]> (artefacts (db w)))
       (artefacts_seq (db w)))
    (notified w
     ++ map (fun o => Notification o id (clock w (S (ticks w)))) (observers m)).

(** The lines [get_artefact_data] prints once decryption has succeeded. *)
Definition verification_lines (a : artefact_row) (decrypted : list byte) : list string :=
  [ nl +:+ rule;
    "VERIFICATION: Encryption/Decryption Check";
    rule;
    "Encrypted data size: " +:+ pretty (List.length (encrypted_data a)) +:+ " bytes";
    "Decrypted data size: " +:+ pretty (List.length decrypted) +:+ " bytes";
    "Stored checksum:     " +:+ substring 0 32 (checksum a) +:+ "...";
    "Calculated checksum: "
      +:+ substring 0 32 (ChecksumManager.calculate_checksum decrypted) +:+ "..." ].

(** The lines [create_artefact] prints before it writes the row. *)
Definition upload_lines (file_data payload : list byte) : list string :=
  [ nl +:+ rule;
    "FILE UPLOAD VERIFICATION";
    rule;
    "Original file size:   " +:+ pretty (List.length file_data) +:+ " bytes";
    "Encrypted data size:  " +:+ pretty (List.length payload) +:+ " bytes";
    "Checksum calculated:  "
      +:+ substring 0 32 (ChecksumManager.calculate_checksum file_data) +:+ "...";
    "File encrypted and checksum stored";
    rule ].

(** The lines [get_artefact_data] prints after a successful comparison. *)
Definition passed_lines : list string :=
  [ "Checksum verification: PASSED";
    "Original file = Decrypted file (verified by checksum)";
    rule ].

(** The row [create_artefact] inserts. *)
Definition created_row (id : Z) (owner : User) (path name type : string)
    (data payload : list byte) (stamp : string) : artefact_row :=
  ArtefactRow id (_user_id owner) name type path payload
    (ChecksumManager.calculate_checksum data) stamp None.

(** The world a successful upload leaves. *)
Definition after_create (owner : User) (path name type : string)
    (data payload : list byte) (p : entropy_pool) (w : world) : world :=
  World (fs w) (console w ++ upload_lines data payload) (clock w) (S (ticks w)) p
    (Database (users (db w)) (users_seq (db w))
       (<[artefacts_seq (db w) + 1 :=
            created_row (artefacts_seq (db w) + 1) owner path name type data payload
              (clock w (ticks w))]> (artefacts (db w)))
       (artefacts_seq (db w) + 1))
    (notified w).

(** The path [get_artefact_data] writes to: [output_path] when it is given
    and not the empty string. *)
Definition sink (output_path : option string) : option string :=
  match output_path with
  | Some p => if bool_decide (p = "") then None else Some p
  | None => None
  end.

(** Keys are never reused: every key of a table is at most the largest key
    handed out, and a row's identifier column is its key. *)
Definition ids_bounded (d : database) : Prop :=
  (forall k a, artefacts d !! k = Some a -> artefact_id a = k /\ k <= artefacts_seq d)
  /\ (forall k r, users d !! k = Some r -> ur_user_id r = k /\ k <= users_seq d).

(** Every stored payload decrypts under [key] to data whose digest is the
    stored one. *)
Definition payloads_consistent (key : list byte) (d : database) : Prop :=
  forall k a, artefacts d !! k = Some a ->
    exists data, AES256GCMStrategy.decrypt (encrypted_data a) key = Ok data
                 /\ checksum a = ChecksumManager.calculate_checksum data.

(** A small world used to run the operations on concrete inputs. *)
Module Demo.

Definition tape : nat -> byte := fun i => Bytes.of_Z (Z.of_nat i).
Definition clock : nat -> string := fun i => "2025-01-01T00:00:" +:+ pretty i.
Definition key : list byte := map tape (seq 100 32).
Definition enc : EncryptionManager := EncMgr AES256GCMStrategy.make (Some key).
Definition stamper : observer := Observer TimestampObserver 0.
Definition logger : observer := Observer ArtefactObserver 1.
Definition mgr : ArtefactManager := ArtMgr enc [stamper; logger].
Definition alice : User := MkUser ClassUser 1 "alice" "user".
Definition bob : User := MkUser ClassUser 2 "bob" "user".
Definition root : User := MkUser ClassAdminUser 3 "root" "admin".

Definition w0 : world :=
  World {[ "a.txt" := FsFile (Bytes.of_string "hello");
           "b.txt" := FsFile (Bytes.of_string "world");
           "music" := FsDir ]}
        [] clock 0 (EntropyPool tape 0) (Database ∅ 0 ∅ 0) [].

(** The world after alice has uploaded [a.txt] as artefact 1. *)
Definition w1 : world :=
  snd (ArtefactManager.create_artefact mgr alice "a.txt" "song" "lyrics" w0).

Definition stored_payload : list byte :=
  match artefacts (db w1) !! 1 with Some a => encrypted_data a | None => [] end.

(** The row of artefact 1 in [w1]. *)
Definition created : artefact_row :=
  ArtefactRow 1 1 "song" "lyrics" "a.txt" stored_payload
    (SHA256.hexdigest (Bytes.of_string "hello")) (clock 0) None.

Definition put_row (a : artefact_row) (w : world) : world :=
  set_db (Database (users (db w)) (users_seq (db w))
            (<[artefact_id a := a]> (artefacts (db w))) (artefacts_seq (db w))) w.

(** Artefact 1 with the stored digest replaced by the digest of other data. *)
Definition wrong_digest_row : artefact_row :=
  ArtefactRow 1 1 "song" "lyrics" "a.txt" stored_payload
    (SHA256.hexdigest (Bytes.of_string "world")) (clock 0) None.

(** Artefact 1 with the first ciphertext byte of the payload flipped (and a
    stored digest that is not the digest of the uploaded file either). *)
Definition corrupted_row : artefact_row :=
  ArtefactRow 1 1 "song" "lyrics" "a.txt"
    (firstn 12 stored_payload ++
     match skipn 12 stored_payload with
     | b :: rest => Bytes.xor b xff :: rest
     | [] => []
     end)
    (SHA256.hexdigest (Bytes.of_string "world")) (clock 0) None.

(** Artefact 1 with the tag of its payload replaced by sixteen zero bytes. *)
Definition retagged_row : artefact_row :=
  ArtefactRow 1 1 "song" "lyrics" "a.txt"
    (firstn 17 stored_payload ++ Bytes.zeros 16)
    (SHA256.hexdigest (Bytes.of_string "hello")) (clock 0) None.

(** A file of two cipher blocks and the payload [encrypt] builds for it. *)
Definition verse : list byte := Bytes.of_string "la la la, thirty-two bytes long!".

Definition verse_payload : list byte :=
  match fst (AES256GCMStrategy.encrypt verse key (EntropyPool tape 0)) with
  | Ok payload => payload
  | Raise _ => []
  end.

(** [verse_payload] with one bit of its first ciphertext block flipped and
    the second ciphertext block changed by the product of that difference
    with the hash subkey; nonce and tag are those of [verse_payload]. *)
Definition forged_payload : list byte :=
  let d1 := x01 :: Bytes.zeros 15 in
  let d2 := Bytes.be_encode 16
              (GCM.gf_mul (Bytes.be_decode d1) (GCM.hash_subkey key)) in
  firstn 12 verse_payload
  ++ Bytes.xor_list (firstn 16 (skipn 12 verse_payload)) d1
  ++ Bytes.xor_list (firstn 16 (skipn 28 verse_payload)) d2
  ++ skipn 44 verse_payload.

(** What [forged_payload] decrypts to under [key]. *)
Definition forged_plaintext : list byte :=
  match AES256GCMStrategy.decrypt forged_payload key with
  | Ok d => d
  | Raise _ => []
  end.

(** Artefact 2: the upload of [verse], its payload replaced by
    [forged_payload], its digest the one stored at upload. *)
Definition forged_row : artefact_row :=
  ArtefactRow 2 1 "verse" "lyrics" "c.txt" forged_payload
    (SHA256.hexdigest verse) (clock 1) None.

End Demo.

(** * Properties *)

(** ** Known-answer tests of the primitives *)

Example sha256_abc :
  SHA256.hexdigest (Bytes.of_string "abc")
  = "ba7816bf8f01cfea414140de5dae2223b00361a396177a9cb410ff61f20015ad"%string.
Proof. vm_compute. reflexivity. Qed.

Example sha256_empty :
  SHA256.hexdigest []
  = "e3b0c44298fc1c149afbf4c8996fb92427ae41e4649b934ca495991b7852b855"%string.
Proof. vm_compute. reflexivity. Qed.

Example sha256_two_blocks :
  SHA256.hexdigest
    (Bytes.of_string "abcdbcdecdefdefgefghfghighijhijkijkljklmklmnlmnomnopnopq")
  = "248d6a61d20638b8e5c026930c3e6039a33ce45964ff2167f6ecedd419db06c1"%string.
Proof. vm_compute. reflexivity. Qed.

Example aes256_fips197 :
  Bytes.hex (AES.encrypt_block
    (unhex "000102030405060708090a0b0c0d0e0f101112131415161718191a1b1c1d1e1f")
    (unhex "00112233445566778899aabbccddeeff"))
  = "8ea2b7ca516745bfeafc49904b496089"%string.
Proof. vm_compute. reflexivity. Qed.

Example aes128_fips197 :
  Bytes.hex (AES.encrypt_block
    (unhex "000102030405060708090a0b0c0d0e0f")
    (unhex "00112233445566778899aabbccddeeff"))
  = "69c4e0d86a7b0430d8cdb78070b4c55a"%string.
Proof. vm_compute. reflexivity. Qed.

Example gcm_case13 :
  Bytes.hex (GCM.ae (Bytes.zeros 32) (Bytes.zeros 12) [] [])
  = "530f8afbc74536b9a963b4f1c4cb738b"%string.
Proof. vm_compute. reflexivity. Qed.

Example gcm_case14 :
  Bytes.hex (GCM.ae (Bytes.zeros 32) (Bytes.zeros 12) (Bytes.zeros 16) [])
  = "cea7403d4d606b6e074ec5d3baf39d18d0d1c8a799996bf0265b98b5d48ab919"%string.
Proof. vm_compute. reflexivity. Qed.

(** ** Bytes *)

Lemma to_Z_range (b : byte) : 0 <= Bytes.to_Z b < 256.
Proof. destruct b; vm_compute; split; congruence. Qed.

Lemma of_to_Z (b : byte) : Bytes.of_Z (Bytes.to_Z b) = b.
Proof. destruct b; reflexivity. Qed.

Lemma to_of_Z (z : Z) : Bytes.to_Z (Bytes.of_Z z) = z mod 256.
Proof.
  unfold Bytes.of_Z, Bytes.to_Z.
  assert (Hr : 0 <= z mod 256 < 256) by (apply Z.mod_pos_bound; lia).
  destruct (Byte.of_N (Z.to_N (z mod 256))) as [b |] eqn:E.
  - apply Byte.to_of_N in E. rewrite E. lia.
  - apply Byte.of_N_None_iff in E. lia.
Qed.

Lemma lxor_byte_range (a b : Z) :
  0 <= a < 256 -> 0 <= b < 256 -> Z.lxor a b mod 256 = Z.lxor a b.
Proof.
  intros Ha Hb. change 256 with (2 ^ 8) in *.
  apply Z.bits_inj'. intros n Hn.
  destruct (Z.lt_ge_cases n 8).
  - rewrite Z.mod_pow2_bits_low by lia. reflexivity.
  - rewrite Z.mod_pow2_bits_high, Z.lxor_spec by lia.
    rewrite <- (Z.mod_small a (2 ^ 8)), <- (Z.mod_small b (2 ^ 8)) by lia.
    rewrite !Z.mod_pow2_bits_high by lia. reflexivity.
Qed.

Lemma xor_cancel (a b : byte) : Bytes.xor (Bytes.xor a b) b = a.
Proof.
  unfold Bytes.xor. rewrite to_of_Z.
  rewrite lxor_byte_range by apply to_Z_range.
  rewrite Z.lxor_assoc, Z.lxor_nilpotent, Z.lxor_0_r. apply of_to_Z.
Qed.

Lemma length_xor_list (xs ys : list byte) :
  List.length (Bytes.xor_list xs ys) = Nat.min (List.length xs) (List.length ys).
Proof.
  revert ys. induction xs as [| x xs IH]; intros [| y ys]; simpl; auto.
Qed.

Lemma xor_list_cancel (xs ks : list byte) :
  (List.length xs <= List.length ks)%nat ->
  Bytes.xor_list (Bytes.xor_list xs ks) ks = xs.
Proof.
  revert ks. induction xs as [| x xs IH]; intros [| k ks] Hlen; simpl in *; try lia.
  - reflexivity.
  - reflexivity.
  - rewrite xor_cancel, IH by lia. reflexivity.
Qed.

Lemma length_be_encode (n : nat) (z : Z) : List.length (Bytes.be_encode n z) = n.
Proof. induction n as [| n IH]; simpl; congruence. Qed.

Lemma length_hex (bs : list byte) :
  String.length (Bytes.hex bs) = (2 * List.length bs)%nat.
Proof. induction bs as [| b bs IH]; simpl; [reflexivity | rewrite IH; lia]. Qed.

Lemma hex_digits_of_byte (b : byte) :
  is_hex_digit (Bytes.hex_digit (Z.shiftr (Bytes.to_Z b) 4)) = true
  /\ is_hex_digit (Bytes.hex_digit (Z.land (Bytes.to_Z b) 15)) = true.
Proof. destruct b; split; vm_compute; reflexivity. Qed.

Lemma hex_is_hexadecimal (bs : list byte) :
  Forall (fun c => is_hex_digit c = true) (list_ascii_of_string (Bytes.hex bs)).
Proof.
  induction bs as [| b bs IH]; simpl; [constructor |].
  destruct (hex_digits_of_byte b) as [Hhi Hlo].
  repeat constructor; assumption.
Qed.

(** ** AES-GCM: decryption inverts encryption *)

Lemma length_encrypt_block (key block : list byte) :
  List.length (AES.encrypt_block key block) = 16%nat.
Proof.
  unfold AES.encrypt_block, AES.cipher, AES.add_round_key.
  rewrite !length_map, length_seq. reflexivity.
Qed.

Lemma length_flat_map_const {A B : Type} (f : A -> list B) (k : nat) (l : list A) :
  (forall x, List.length (f x) = k) ->
  List.length (flat_map f l) = (k * List.length l)%nat.
Proof.
  intros Hf. induction l as [| x l IH]; simpl; [lia |].
  rewrite length_app, Hf, IH. lia.
Qed.

Lemma keystream_covers (key icb : list byte) (n : nat) :
  (n <= List.length (GCM.keystream key icb n))%nat.
Proof.
  unfold GCM.keystream.
  rewrite (length_flat_map_const _ 16) by (intros; apply length_encrypt_block).
  rewrite length_seq.
  pose proof (Nat.div_mod_eq (n + 15) 16) as Hdm.
  pose proof (Nat.mod_upper_bound (n + 15) 16 ltac:(lia)) as Hub.
  lia.
Qed.

Lemma length_gctr (key icb data : list byte) :
  List.length (GCM.gctr key icb data) = List.length data.
Proof.
  unfold GCM.gctr. rewrite length_xor_list.
  pose proof (keystream_covers key icb (List.length data)). lia.
Qed.

Lemma gctr_involutive (key icb data : list byte) :
  GCM.gctr key icb (GCM.gctr key icb data) = data.
Proof.
  unfold GCM.gctr at 1. rewrite length_gctr. unfold GCM.gctr.
  apply xor_list_cancel, keystream_covers.
Qed.

Lemma length_tag (key iv aad ct : list byte) :
  List.length (GCM.tag key iv aad ct) = 16%nat.
Proof.
  unfold GCM.tag. rewrite length_xor_list, length_encrypt_block, length_be_encode.
  reflexivity.
Qed.

Lemma length_ae (key iv p aad : list byte) :
  List.length (GCM.ae key iv p aad) = (List.length p + 16)%nat.
Proof. unfold GCM.ae. rewrite length_app, length_gctr, length_tag. reflexivity. Qed.

Lemma ad_ae (key iv p aad : list byte) :
  GCM.ad key iv (GCM.ae key iv p aad) aad = Some p.
Proof.
  unfold GCM.ad. rewrite length_ae.
  destruct (Nat.ltb_spec (List.length p + 16) 16) as [Hlt | _]; [lia |].
  replace (List.length p + 16 - 16)%nat with (List.length p) by lia.
  unfold GCM.ae.
  set (ct := GCM.gctr key (GCM.inc32_by (GCM.j0 key iv) 1) p).
  assert (Hct : List.length ct = List.length p) by apply length_gctr.
  rewrite <- Hct, take_app_length, drop_app_length.
  rewrite decide_True by reflexivity.
  subst ct. rewrite gctr_involutive. reflexivity.
Qed.

(** A payload whose tag bytes differ from the tag of its ciphertext is
    rejected. *)
Lemma ad_rejects_wrong_tag (key iv ct t aad : list byte) :
  List.length t = 16%nat -> t <> GCM.tag key iv aad ct ->
  GCM.ad key iv (ct ++ t) aad = None.
Proof.
  intros Hlen Hne. unfold GCM.ad. rewrite length_app, Hlen.
  destruct (Nat.ltb_spec (List.length ct + 16) 16) as [Hlt | _]; [lia |].
  replace (List.length ct + 16 - 16)%nat with (List.length ct) by lia.
  rewrite take_app_length, drop_app_length.
  rewrite decide_False by assumption. reflexivity.
Qed.

(** ** The encryption strategy and its manager *)

Lemma length_urandom (n : nat) (e : entropy_pool) :
  List.length (fst (urandom n e)) = n.
Proof. unfold urandom. simpl. rewrite length_map, length_seq. reflexivity. Qed.

Lemma aesgcm_new_32 (k : list byte) : List.length k = 32%nat -> AESGCM.new k = Ok k.
Proof. intros Hk. unfold AESGCM.new. rewrite Hk. reflexivity. Qed.

Lemma check_nonce_12 (nonce : list byte) :
  List.length nonce = 12%nat -> AESGCM.check_nonce nonce = Ok tt.
Proof. intros Hn. unfold AESGCM.check_nonce. rewrite Hn. reflexivity. Qed.

Lemma strategy_encrypt_eq (p k : list byte) (e : entropy_pool) :
  List.length k = 32%nat ->
  AES256GCMStrategy.encrypt p k e
  = (Ok (fst (urandom 12 e) ++ GCM.ae k (fst (urandom 12 e)) p []), snd (urandom 12 e)).
Proof.
  intros Hk. unfold AES256GCMStrategy.encrypt.
  destruct (urandom 12 e) as [nonce e'] eqn:Eu.
  assert (Hn : List.length nonce = 12%nat).
  { change nonce with (fst (nonce, e')). rewrite <- Eu. apply length_urandom. }
  rewrite aesgcm_new_32 by assumption.
  unfold AESGCM.encrypt. rewrite check_nonce_12 by assumption. reflexivity.
Qed.

Lemma strategy_decrypt_sealed (p k nonce : list byte) :
  List.length k = 32%nat -> List.length nonce = 12%nat ->
  AES256GCMStrategy.decrypt (nonce ++ GCM.ae k nonce p []) k = Ok p.
Proof.
  intros Hk Hn. unfold AES256GCMStrategy.decrypt.
  rewrite aesgcm_new_32 by assumption.
  rewrite take_app_length', drop_app_length' by (symmetry; assumption).
  unfold AESGCM.decrypt. rewrite check_nonce_12 by assumption.
  simpl. rewrite ad_ae. reflexivity.
Qed.

Lemma encrypt_decrypt_round_trip_at (p k : list byte) (e : entropy_pool) :
  List.length k = 32%nat ->
  exists payload,
    fst (AES256GCMStrategy.encrypt p k e) = Ok payload
    /\ AES256GCMStrategy.decrypt payload k = Ok p.
Proof.
  intros Hk. rewrite strategy_encrypt_eq by assumption.
  eexists. split; [reflexivity |].
  apply strategy_decrypt_sealed; [assumption | apply length_urandom].
Qed.

(** C1. For every plaintext [p], every 32-byte key [k] and every state of
    the entropy pool, [encrypt] returns a payload made of the 12-byte nonce
    it drew followed by the ciphertext with its 16-byte tag, and [decrypt]
    of that payload under [k] returns exactly [p]. *)
Theorem encrypt_decrypt_round_trip (p k : list byte) (e : entropy_pool) :
  List.length k = 32%nat ->
  exists nonce sealed,
    fst (AES256GCMStrategy.encrypt p k e) = Ok (nonce ++ sealed)
    /\ nonce = fst (urandom 12 e)
    /\ List.length nonce = 12%nat
    /\ sealed = GCM.ae k nonce p []
    /\ List.length sealed = (List.length p + 16)%nat
    /\ AES256GCMStrategy.decrypt (nonce ++ sealed) k = Ok p.
Proof.
  intros Hk. exists (fst (urandom 12 e)), (GCM.ae k (fst (urandom 12 e)) p []).
  rewrite strategy_encrypt_eq by assumption.
  cbn [fst]. split; [reflexivity |]. split; [reflexivity |].
  split; [apply length_urandom |]. split; [reflexivity |].
  split; [apply length_ae |].
  apply strategy_decrypt_sealed; [assumption | apply length_urandom].
Qed.

Lemma encrypt_decrypt_round_trip_witness :
  List.length Demo.key = 32%nat
  /\ exists nonce sealed,
       fst (AES256GCMStrategy.encrypt (Bytes.of_string "hello") Demo.key
              (EntropyPool Demo.tape 0)) = Ok (nonce ++ sealed)
       /\ nonce = fst (urandom 12 (EntropyPool Demo.tape 0))
       /\ List.length nonce = 12%nat
       /\ sealed = GCM.ae Demo.key nonce (Bytes.of_string "hello") []
       /\ List.length sealed = (List.length (Bytes.of_string "hello") + 16)%nat
       /\ AES256GCMStrategy.decrypt (nonce ++ sealed) Demo.key
          = Ok (Bytes.of_string "hello").
Proof.
  split; [reflexivity |].
  apply (encrypt_decrypt_round_trip (Bytes.of_string "hello") Demo.key
           (EntropyPool Demo.tape 0)).
  reflexivity.
Defined.

(** C5. Two successive calls of [encrypt] on the same plaintext under the
    same 32-byte key each read their own 12 bytes of the entropy pool (the
    second call reads the 12 positions after those of the first); whenever
    these two nonces differ, the two payloads differ, and both payloads
    decrypt back to the plaintext. *)
Theorem fresh_nonce_distinct_payloads (p k : list byte) (e : entropy_pool) :
  List.length k = 32%nat ->
  let first := AES256GCMStrategy.encrypt p k e in
  let second := AES256GCMStrategy.encrypt p k (snd first) in
  let nonce1 := map (tape e) (seq (cursor e) 12) in
  let nonce2 := map (tape e) (seq (cursor e + 12) 12) in
  nonce1 <> nonce2 ->
  exists c1 c2,
    fst first = Ok c1 /\ fst second = Ok c2
    /\ firstn 12 c1 = nonce1 /\ firstn 12 c2 = nonce2
    /\ c1 <> c2
    /\ AES256GCMStrategy.decrypt c1 k = Ok p
    /\ AES256GCMStrategy.decrypt c2 k = Ok p.
Proof.
  intros Hk first second nonce1 nonce2 Hfresh.
  subst first second. rewrite !strategy_encrypt_eq by assumption. simpl.
  fold nonce1 nonce2.
  assert (H1 : List.length nonce1 = 12%nat)
    by (unfold nonce1; rewrite length_map, length_seq; reflexivity).
  assert (H2 : List.length nonce2 = 12%nat)
    by (unfold nonce2; rewrite length_map, length_seq; reflexivity).
  exists (nonce1 ++ GCM.ae k nonce1 p []), (nonce2 ++ GCM.ae k nonce2 p []).
  assert (T1 : firstn 12 (nonce1 ++ GCM.ae k nonce1 p []) = nonce1)
    by (apply take_app_length'; symmetry; assumption).
  assert (T2 : firstn 12 (nonce2 ++ GCM.ae k nonce2 p []) = nonce2)
    by (apply take_app_length'; symmetry; assumption).
  repeat split; try assumption.
  - intros Heq. apply Hfresh. rewrite <- T1, <- T2, Heq. reflexivity.
  - apply strategy_decrypt_sealed; assumption.
  - apply strategy_decrypt_sealed; assumption.
Qed.

Lemma fresh_nonce_distinct_payloads_witness :
  exists c1 c2,
    fst (AES256GCMStrategy.encrypt (Bytes.of_string "hello") Demo.key
           (EntropyPool Demo.tape 0)) = Ok c1
    /\ fst (AES256GCMStrategy.encrypt (Bytes.of_string "hello") Demo.key
              (snd (AES256GCMStrategy.encrypt (Bytes.of_string "hello") Demo.key
                      (EntropyPool Demo.tape 0)))) = Ok c2
    /\ firstn 12 c1 = map Demo.tape (seq 0 12)
    /\ firstn 12 c2 = map Demo.tape (seq 12 12)
    /\ c1 <> c2
    /\ AES256GCMStrategy.decrypt c1 Demo.key = Ok (Bytes.of_string "hello")
    /\ AES256GCMStrategy.decrypt c2 Demo.key = Ok (Bytes.of_string "hello").
Proof.
  apply (fresh_nonce_distinct_payloads (Bytes.of_string "hello") Demo.key
           (EntropyPool Demo.tape 0)).
  - reflexivity.
  - vm_compute. discriminate.
Defined.

(** C8. Without an active key, [encrypt_data] and [decrypt_data] raise the
    no-key error; [set_key] with a key that is not exactly 32 bytes long
    raises the key-length error; with a 32-byte key, [set_key] succeeds and
    adopts the key, after which [encrypt_data] returns a payload and
    [decrypt_data] raises neither of the two errors. *)
Theorem key_management_errors
    (m : EncryptionManager) (key data : list byte) (e : entropy_pool) :
  (_key m = None ->
     fst (EncryptionManager.encrypt_data m data e) = Raise NoKeySet
     /\ EncryptionManager.decrypt_data m data = Raise NoKeySet)
  /\ (List.length key <> 32%nat ->
        EncryptionManager.set_key key m = Raise InvalidKeyLength)
  /\ (List.length key = 32%nat -> strategy m = AES256GCMStrategy.make ->
        let m' := EncMgr (strategy m) (Some key) in
        EncryptionManager.set_key key m = Ok m'
        /\ (exists payload,
              fst (EncryptionManager.encrypt_data m' data e) = Ok payload)
        /\ EncryptionManager.decrypt_data m' data <> Raise NoKeySet
        /\ EncryptionManager.decrypt_data m' data <> Raise InvalidKeyLength).
Proof.
  split; [| split].
  - intros Hnone. unfold EncryptionManager.encrypt_data, EncryptionManager.decrypt_data.
    rewrite Hnone. split; reflexivity.
  - intros Hlen. unfold EncryptionManager.set_key.
    destruct (Nat.eqb_spec (List.length key) 32) as [Heq | _]; [contradiction |].
    reflexivity.
  - intros Hlen Hst m'. split; [| split; [| split]].
    + unfold EncryptionManager.set_key. rewrite Hlen. reflexivity.
    + unfold EncryptionManager.encrypt_data, m'. cbn [_key strategy]. rewrite Hst.
      cbn [encrypt AES256GCMStrategy.make].
      rewrite strategy_encrypt_eq by assumption. eexists. reflexivity.
    + unfold EncryptionManager.decrypt_data, m'. cbn [_key strategy]. rewrite Hst.
      cbn [decrypt AES256GCMStrategy.make]. unfold AES256GCMStrategy.decrypt.
      rewrite aesgcm_new_32 by assumption.
      unfold AESGCM.decrypt, AESGCM.check_nonce, NoKeySet.
      repeat case_match; simplify_eq; discriminate.
    + unfold EncryptionManager.decrypt_data, m'. cbn [_key strategy]. rewrite Hst.
      cbn [decrypt AES256GCMStrategy.make]. unfold AES256GCMStrategy.decrypt.
      rewrite aesgcm_new_32 by assumption.
      unfold AESGCM.decrypt, AESGCM.check_nonce, InvalidKeyLength.
      repeat case_match; simplify_eq; discriminate.
Qed.

Lemma key_management_errors_witness :
  (fst (EncryptionManager.encrypt_data (EncMgr AES256GCMStrategy.make None)
          (Bytes.of_string "hello") (EntropyPool Demo.tape 0)) = Raise NoKeySet
   /\ EncryptionManager.decrypt_data (EncMgr AES256GCMStrategy.make None)
        (Bytes.of_string "hello") = Raise NoKeySet)
  /\ EncryptionManager.set_key (Bytes.of_string "short key")
       (EncMgr AES256GCMStrategy.make None) = Raise InvalidKeyLength
  /\ EncryptionManager.set_key Demo.key (EncMgr AES256GCMStrategy.make None)
     = Ok Demo.enc
  /\ EncryptionManager.decrypt_data Demo.enc (Bytes.of_string "hello")
     <> Raise NoKeySet.
Proof.
  destruct (key_management_errors (EncMgr AES256GCMStrategy.make None)
              (Bytes.of_string "short key") (Bytes.of_string "hello")
              (EntropyPool Demo.tape 0)) as [Hnone [Hshort _]].
  destruct (key_management_errors (EncMgr AES256GCMStrategy.make None)
              Demo.key (Bytes.of_string "hello")
              (EntropyPool Demo.tape 0)) as [_ [_ Hgood]].
  split; [apply Hnone; reflexivity |].
  split; [apply Hshort; vm_compute; discriminate |].
  destruct (Hgood eq_refl eq_refl) as [Hset [_ [Hdec _]]].
  split; [exact Hset | exact Hdec].
Defined.

(** ** checksum.py *)

Lemma length_digest (msg : list byte) : List.length (SHA256.digest msg) = 32%nat.
Proof.
  unfold SHA256.digest. set (s := SHA256.final_state msg).
  cbn [flat_map]. rewrite !length_app, !length_be_encode. reflexivity.
Qed.

(** C9. [verify_checksum b e] is true exactly when [calculate_checksum b]
    equals [e]; [calculate_checksum] is a function of its argument alone
    (equal inputs give equal outputs) and its result is a string of exactly
    64 characters, each a hexadecimal digit. *)
Theorem verify_checksum_spec (b : list byte) (e : string) :
  (ChecksumManager.verify_checksum b e = true
   <-> ChecksumManager.calculate_checksum b = e)
  /\ (forall b' : list byte,
        b' = b ->
        ChecksumManager.calculate_checksum b' = ChecksumManager.calculate_checksum b)
  /\ String.length (ChecksumManager.calculate_checksum b) = 64%nat
  /\ Forall (fun c => is_hex_digit c = true)
       (list_ascii_of_string (ChecksumManager.calculate_checksum b)).
Proof.
  split; [| split; [| split]].
  - unfold ChecksumManager.verify_checksum. apply bool_decide_eq_true.
  - intros b' ->. reflexivity.
  - unfold ChecksumManager.calculate_checksum, SHA256.hexdigest.
    rewrite length_hex, length_digest. reflexivity.
  - apply hex_is_hexadecimal.
Qed.

Lemma verify_checksum_spec_witness :
  ChecksumManager.verify_checksum (Bytes.of_string "hello")
    "2cf24dba5fb0a30e26e83b2ac5b9e29e1b161e5c1fa7425e73043362938b9824" = true
  /\ ChecksumManager.calculate_checksum (Bytes.of_string "hello")
     = ChecksumManager.calculate_checksum (Bytes.of_string "hello").
Proof.
  destruct (verify_checksum_spec (Bytes.of_string "hello")
              "2cf24dba5fb0a30e26e83b2ac5b9e29e1b161e5c1fa7425e73043362938b9824")
    as [[_ Hverify] [Hdet _]].
  split; [apply Hverify; vm_compute; reflexivity | apply Hdet; reflexivity].
Defined.

(** ** user_manager.py *)

(** C3. For a principal of class [User], [can_view_artefact] is true for
    every owner, and [can_modify_artefact] and [can_delete_artefact] are true
    exactly when the principal's identifier equals the owner identifier; for
    a principal of class [AdminUser] the three queries are true for every
    owner. *)
Theorem permission_queries (u : User) (owner : Z) :
  (class_of u = ClassUser ->
     can_view_artefact u owner = true
     /\ (can_modify_artefact u owner = true <-> _user_id u = owner)
     /\ (can_delete_artefact u owner = true <-> _user_id u = owner))
  /\ (class_of u = ClassAdminUser ->
        can_view_artefact u owner = true
        /\ can_modify_artefact u owner = true
        /\ can_delete_artefact u owner = true).
Proof.
  unfold can_view_artefact, can_modify_artefact, can_delete_artefact.
  split; intros Hc; rewrite Hc.
  - split; [reflexivity |]. split; apply Z.eqb_eq.
  - repeat split.
Qed.

Lemma permission_queries_witness :
  (can_view_artefact Demo.alice 2 = true
   /\ (can_modify_artefact Demo.alice 2 = true <-> _user_id Demo.alice = 2)
   /\ (can_delete_artefact Demo.alice 2 = true <-> _user_id Demo.alice = 2))
  /\ (can_view_artefact Demo.root 2 = true
      /\ can_modify_artefact Demo.root 2 = true
      /\ can_delete_artefact Demo.root 2 = true).
Proof.
  split.
  - apply (proj1 (permission_queries Demo.alice 2)). reflexivity.
  - apply (proj2 (permission_queries Demo.root 2)). reflexivity.
Defined.

(** ** Reasoning about computations on the world *)

Section Frames.
Context {B : Type} (f : world -> B).

Lemma preserves_ret {A : Type} (a : A) : preserves f (ret a).
Proof. intros w. reflexivity. Qed.

Lemma preserves_raise {A : Type} (e : exn) : preserves f (raise (A := A) e).
Proof. intros w. reflexivity. Qed.

Lemma preserves_lift_result {A : Type} (r : result A) : preserves f (lift_result r).
Proof. intros w. reflexivity. Qed.

Lemma preserves_bind {A C : Type} (c : io A) (k : A -> io C) :
  preserves f c -> (forall a, preserves f (k a)) -> preserves f (bind c k).
Proof.
  intros Hc Hk w. unfold bind. specialize (Hc w).
  destruct (c w) as [[a | e] w']; simpl in *.
  - rewrite Hk. exact Hc.
  - exact Hc.
Qed.

Lemma preserves_try_except {A : Type} (body : io A) (handler : exn -> io A) :
  preserves f body -> (forall e, preserves f (handler e)) ->
  preserves f (try_except body handler).
Proof.
  intros Hb Hh w. unfold try_except. specialize (Hb w).
  destruct (body w) as [[a | e] w']; simpl in *.
  - exact Hb.
  - rewrite Hh. exact Hb.
Qed.

Lemma preserves_for_each {A : Type} (g : A -> io unit) (l : list A) :
  (forall x, preserves f (g x)) -> preserves f (for_each g l).
Proof.
  intros Hg. induction l as [| x l IH]; simpl.
  - apply preserves_ret.
  - apply preserves_bind; [apply Hg | intros _; exact IH].
Qed.
End Frames.

Lemma never_raises_ret {A : Type} (a : A) : never_raises (ret a).
Proof. intros w. exists a. reflexivity. Qed.

Lemma never_raises_bind {A C : Type} (c : io A) (k : A -> io C) :
  never_raises c -> (forall a, never_raises (k a)) -> never_raises (bind c k).
Proof.
  intros Hc Hk w. unfold returns_normally, bind.
  destruct (Hc w) as [a Ha]. destruct (c w) as [r w']. simpl in Ha. subst r.
  apply Hk.
Qed.

Lemma never_raises_try_except {A : Type} (body : io A) (handler : exn -> io A) :
  (forall e, never_raises (handler e)) -> never_raises (try_except body handler).
Proof.
  intros Hh w. unfold returns_normally, try_except.
  destruct (body w) as [[a | e] w'].
  - exists a. reflexivity.
  - apply Hh.
Qed.

Lemma never_raises_print (line : string) : never_raises (print line).
Proof. intros w. exists tt. reflexivity. Qed.

Lemma never_raises_get_artefact (artefact_id : Z) :
  never_raises (DatabaseManager.get_artefact artefact_id).
Proof. intros w. eexists. reflexivity. Qed.

Lemma never_raises_delete_artefact (artefact_id : Z) :
  never_raises (DatabaseManager.delete_artefact artefact_id).
Proof.
  intros w. unfold returns_normally, DatabaseManager.delete_artefact.
  destruct (artefacts (db w) !! artefact_id); eexists; reflexivity.
Qed.

Create HintDb frame discriminated.

#[local] Hint Resolve preserves_ret preserves_raise preserves_lift_result
  never_raises_ret never_raises_print never_raises_get_artefact
  never_raises_delete_artefact : frame.

(** Splits a computation along [bind] and [try_except], takes the branches
    of its conditionals apart and closes the primitive steps by evaluation. *)
Ltac frame :=
  repeat first
    [ progress intros
    | apply preserves_bind
    | apply preserves_try_except
    | apply preserves_for_each
    | solve [eauto with frame]
    | match goal with
      | |- preserves _ (match ?x with _ => _ end) => destruct x
      | |- preserves _ (if ?b then _ else _) => destruct b
      | |- preserves _ _ => solve [intros ?; reflexivity]
      | |- preserves _ _ =>
          solve [intros ?; cbv beta zeta delta [read_file write_file
                   DatabaseManager.update_artefact DatabaseManager.delete_artefact
                   DatabaseManager.create_artefact ArtefactManager.encrypt_data
                   bind now_isoformat];
                 repeat case_match; reflexivity]
      end ].

Lemma create_preserves_notified m owner path name type :
  preserves notified (ArtefactManager.create_artefact m owner path name type).
Proof. unfold ArtefactManager.create_artefact. frame. Qed.

Lemma delete_preserves_notified m id user :
  preserves notified (ArtefactManager.delete_artefact m id user).
Proof. unfold ArtefactManager.delete_artefact. frame. Qed.

Lemma read_preserves_notified m id user :
  preserves notified (ArtefactManager.read_artefact m id user).
Proof. unfold ArtefactManager.read_artefact. frame. Qed.

Lemma get_data_preserves_notified m id user out :
  preserves notified (ArtefactManager.get_artefact_data m id user out).
Proof. unfold ArtefactManager.get_artefact_data. frame. Qed.

(** ** artefact_manager.py: what each run of [update_artefact] does *)

Lemma notify_observers_run m id ts w :
  ArtefactManager._notify_observers m id ts w
  = (Ok tt,
     set_notified (notified w ++ map (fun o => Notification o id ts) (observers m)) w).
Proof.
  unfold ArtefactManager._notify_observers.
  revert w. induction (observers m) as [| o os IH]; intros w; simpl.
  - rewrite app_nil_r. destruct w; reflexivity.
  - unfold bind, on_artefact_modified.
    destruct (obs_class o); rewrite IH; unfold set_notified; simpl;
      rewrite <- app_assoc; reflexivity.
Qed.

Lemma update_artefact_run m id path user w :
  ArtefactManager.update_artefact m id path user w
  = match artefacts (db w) !! id with
    | None => (Ok false, w)
    | Some a =>
        if can_modify_artefact user (owner_id a) then
          match fs w !! path with
          | None => (Raise (FileNotFoundError ("File not found: " +:+ path)), w)
          | Some FsDir =>
              (Ok false,
               set_console
                 (console w
                  ++ ["Error updating artefact: "
                      +:+ ("[Errno 21] Is a directory: '" +:+ path +:+ "'")]) w)
          | Some (FsFile data) =>
              match EncryptionManager.encrypt_data (encryption m) data (pool w) with
              | (Raise e, p) =>
                  (Ok false,
                   set_console (console w ++ ["Error updating artefact: " +:+ exn_str e])
                     (set_pool p w))
              | (Ok payload, p) => (Ok true, after_update m id a data payload p w)
              end
          end
        else
          (Ok false,
           set_console
             (console w
              ++ ["Permission denied: You can only modify your own artefacts."]) w)
    end.
Proof.
  unfold ArtefactManager.update_artefact, bind, DatabaseManager.get_artefact.
  destruct (artefacts (db w) !! id) as [a |] eqn:Ea; [| reflexivity].
  destruct (can_modify_artefact user (owner_id a)); [| reflexivity].
  cbn [negb]. unfold path_exists.
  destruct (fs w !! path) as [[data |] |] eqn:Ef; cbn [negb bool_decide]; try reflexivity.
  - rewrite bool_decide_eq_true_2 by eauto. cbn [negb].
    unfold try_except, read_file. rewrite Ef.
    unfold ArtefactManager.encrypt_data.
    destruct (EncryptionManager.encrypt_data (encryption m) data (pool w))
      as [[payload | e] p] eqn:Ee.
    + unfold DatabaseManager.update_artefact, bind, now_isoformat. cbn.
      rewrite Ea. rewrite notify_observers_run. reflexivity.
    + reflexivity.
  - rewrite bool_decide_eq_true_2 by eauto. cbn [negb].
    unfold try_except, read_file. rewrite Ef. reflexivity.
Qed.

(** C10. When the artefact does not exist (no row is stored under the
    identifier, an integer the database can look up), or the caller's
    [can_modify_artefact] check denies access, [update_artefact] returns
    [False], the database (hence the stored payload, digest and modification
    timestamp of every row) is exactly what it was, and no observer is
    called. *)
Theorem failed_update_changes_nothing m id path user w :
  ((artefacts (db w) !! id = None /\ in_int64 id)
   \/ exists a, artefacts (db w) !! id = Some a
                /\ can_modify_artefact user (owner_id a) = false) ->
  let out := ArtefactManager.update_artefact m id path user w in
  fst out = Ok false
  /\ db (snd out) = db w
  /\ artefacts (db (snd out)) !! id = artefacts (db w) !! id
  /\ notified (snd out) = notified w.
Proof.
  intros Hcase out. subst out. rewrite update_artefact_run.
  destruct Hcase as [[Hnone _] | [a [Hsome Hdenied]]].
  - rewrite Hnone. cbn [fst snd]. auto.
  - rewrite Hsome, Hdenied. cbn [fst snd]. auto.
Qed.

Lemma failed_update_changes_nothing_witness :
  (fst (ArtefactManager.update_artefact Demo.mgr 1 "b.txt" Demo.bob Demo.w1) = Ok false
   /\ db (snd (ArtefactManager.update_artefact Demo.mgr 1 "b.txt" Demo.bob Demo.w1))
      = db Demo.w1
   /\ artefacts (db (snd (ArtefactManager.update_artefact Demo.mgr 1 "b.txt" Demo.bob
                            Demo.w1))) !! 1
      = artefacts (db Demo.w1) !! 1
   /\ notified (snd (ArtefactManager.update_artefact Demo.mgr 1 "b.txt" Demo.bob
                       Demo.w1))
      = notified Demo.w1)
  /\ fst (ArtefactManager.update_artefact Demo.mgr 7 "b.txt" Demo.alice Demo.w1)
     = Ok false.
Proof.
  split.
  - apply (failed_update_changes_nothing Demo.mgr 1 "b.txt" Demo.bob Demo.w1).
    right. eexists. split; vm_compute; reflexivity.
  - apply (failed_update_changes_nothing Demo.mgr 7 "b.txt" Demo.alice Demo.w1).
    left. split; [vm_compute; reflexivity | unfold in_int64; lia].
Defined.

(** C7. When [update_artefact] returns [True], every registered observer has
    been called exactly once, in registration order, with the artefact
    identifier and one timestamp (the clock reading taken after the row was
    written), and these calls are already part of the world in which the
    call returns.  When [update_artefact] returns anything else, and on
    every [create_artefact] and [delete_artefact], no observer is called. *)
Theorem observers_notified_on_successful_update_only
    m id path user w (owner : User) (name type : string) :
  let out := ArtefactManager.update_artefact m id path user w in
  (fst out = Ok true ->
     notified (snd out)
     = notified w
       ++ map (fun o => Notification o id (clock w (S (ticks w)))) (observers m))
  /\ (fst out <> Ok true -> notified (snd out) = notified w)
  /\ notified (snd (ArtefactManager.create_artefact m owner path name type w))
     = notified w
  /\ notified (snd (ArtefactManager.delete_artefact m id user w)) = notified w.
Proof.
  intros out.
  split; [| split; [| split]];
    [| | apply create_preserves_notified | apply delete_preserves_notified].
  - subst out. rewrite update_artefact_run. intros Hok.
    repeat case_match; simpl in Hok; try discriminate. reflexivity.
  - subst out. rewrite update_artefact_run. intros Hko.
    repeat case_match; simpl in *; try reflexivity. contradiction.
Qed.

Lemma observers_notified_on_successful_update_only_witness :
  notified (snd (ArtefactManager.update_artefact Demo.mgr 1 "b.txt" Demo.alice Demo.w1))
  = [ Notification Demo.stamper 1 (Demo.clock 2);
      Notification Demo.logger 1 (Demo.clock 2) ]
  /\ notified (snd (ArtefactManager.update_artefact Demo.mgr 1 "b.txt" Demo.bob Demo.w1))
     = [].
Proof.
  split.
  - apply (proj1 (observers_notified_on_successful_update_only
                    Demo.mgr 1 "b.txt" Demo.alice Demo.w1 Demo.alice "song" "lyrics")).
    vm_compute. reflexivity.
  - apply (proj1 (proj2 (observers_notified_on_successful_update_only
                    Demo.mgr 1 "b.txt" Demo.bob Demo.w1 Demo.alice "song" "lyrics"))).
    vm_compute. discriminate.
Defined.

(** ** artefact_manager.py: the two refusals of [get_artefact_data] *)

(** C2. When the record exists, its payload decrypts to [d] and the digest
    recomputed over [d] differs from the stored digest, [get_artefact_data]
    returns [None] whatever the caller and whatever the output path; the
    file system is exactly what it was (nothing is written to the sink), and
    the only effect is the printed verification report ending with the
    checksum-mismatch warning. *)
Theorem digest_mismatch_fails_closed
    m id user (output_path : option string) w a (d : list byte) :
  artefacts (db w) !! id = Some a ->
  EncryptionManager.decrypt_data (encryption m) (encrypted_data a) = Ok d ->
  ChecksumManager.calculate_checksum d <> checksum a ->
  let out := ArtefactManager.get_artefact_data m id user output_path w in
  fst out = Ok None
  /\ fs (snd out) = fs w
  /\ snd out
     = set_console
         (console w ++ verification_lines a d ++ [integrity_violation_line; rule]) w.
Proof.
  intros Hrow Hdec Hne out. subst out.
  unfold ArtefactManager.get_artefact_data, bind, DatabaseManager.get_artefact.
  rewrite Hrow. cbn [can_view_artefact negb].
  unfold try_except, ArtefactManager.decrypt_data, lift_result. rewrite Hdec.
  unfold print. cbn [set_console console fs clock ticks pool db notified].
  rewrite bool_decide_eq_false_2 by assumption. cbn [negb].
  cbn [set_console console fs clock ticks pool db notified fst snd].
  split; [reflexivity |]. split; [reflexivity |].
  cbv [set_console console fs clock ticks pool db notified ret snd
       verification_lines integrity_violation_line].
  rewrite <- !app_assoc. reflexivity.
Qed.

Lemma digest_mismatch_fails_closed_witness :
  fst (ArtefactManager.get_artefact_data Demo.mgr 1 Demo.bob (Some "out.bin")
         (Demo.put_row Demo.wrong_digest_row Demo.w1)) = Ok None
  /\ fs (snd (ArtefactManager.get_artefact_data Demo.mgr 1 Demo.bob (Some "out.bin")
                (Demo.put_row Demo.wrong_digest_row Demo.w1)))
     = fs (Demo.put_row Demo.wrong_digest_row Demo.w1).
Proof.
  destruct (digest_mismatch_fails_closed Demo.mgr 1 Demo.bob (Some "out.bin")
              (Demo.put_row Demo.wrong_digest_row Demo.w1) Demo.wrong_digest_row
              (Bytes.of_string "hello")) as [Hres [Hfs _]].
  - vm_compute. reflexivity.
  - vm_compute. reflexivity.
  - vm_compute. discriminate.
  - split; [exact Hres | exact Hfs].
Defined.

Lemma strategy_decrypt_wrong_tag (key nonce ct t : list byte) :
  List.length key = 32%nat -> List.length nonce = 12%nat -> List.length t = 16%nat ->
  t <> GCM.tag key nonce [] ct ->
  AES256GCMStrategy.decrypt (nonce ++ ct ++ t) key = Raise InvalidTag.
Proof.
  intros Hk Hn Ht Hne. unfold AES256GCMStrategy.decrypt.
  rewrite aesgcm_new_32 by assumption.
  rewrite take_app_length', drop_app_length' by (symmetry; assumption).
  unfold AESGCM.decrypt. rewrite check_nonce_12 by assumption.
  cbn [AESGCM.associated]. rewrite ad_rejects_wrong_tag by assumption.
  reflexivity.
Qed.

(** The claim C4 as stated fails: a corrupted payload need not fail the
    cipher's tag check.  [Demo.forged_payload] differs from the payload
    [encrypt] produced, yet its tag verifies and it decrypts (to other
    bytes than the file); [get_artefact_data] then refuses it at the digest
    comparison, with the checksum-mismatch warning and without the
    authentication-failure line. *)
Lemma forged_payload_reaches_digest_check :
  Demo.forged_payload <> Demo.verse_payload
  /\ List.length Demo.forged_payload = List.length Demo.verse_payload
  /\ EncryptionManager.decrypt_data Demo.enc Demo.verse_payload = Ok Demo.verse
  /\ EncryptionManager.decrypt_data Demo.enc Demo.forged_payload
     = Ok Demo.forged_plaintext
  /\ Demo.forged_plaintext <> Demo.verse
  /\ fst (ArtefactManager.get_artefact_data Demo.mgr 2 Demo.alice None
            (Demo.put_row Demo.forged_row Demo.w1)) = Ok None
  /\ integrity_violation_line
     ∈ console (snd (ArtefactManager.get_artefact_data Demo.mgr 2 Demo.alice None
                       (Demo.put_row Demo.forged_row Demo.w1)))
  /\ authentication_failure_line
     ∉ console (snd (ArtefactManager.get_artefact_data Demo.mgr 2 Demo.alice None
                       (Demo.put_row Demo.forged_row Demo.w1))).
Proof.
  split; [vm_compute; discriminate |].
  split; [vm_compute; reflexivity |].
  split; [vm_compute; reflexivity |].
  split; [vm_compute; reflexivity |].
  split; [vm_compute; discriminate |].
  split; [vm_compute; reflexivity |].
  split; apply (bool_decide_unpack _); vm_compute; exact I.
Qed.

(** C4, amended. When the cipher layer rejects the stored payload
    ([decrypt_data] raises, [InvalidTag] when the tag does not verify),
    [get_artefact_data] returns [None] and prints one line, the retrieval
    error naming the exception, and nothing else: the digest is never
    computed or compared (the outcome does not depend on the stored digest,
    no verification line is printed) and nothing is written; that line is
    never the checksum-mismatch warning of a digest failure.  Under
    AES-256-GCM with a 32-byte key the cipher layer does reject, with
    [InvalidTag], every payload made of a 12-byte nonce, ciphertext bytes
    and sixteen bytes other than the GCM tag of that ciphertext under the
    nonce and the key: a stored payload whose tag does not verify, whichever
    of its bytes were altered, ends in the authentication-failure line. *)
Theorem authentication_failure_precedes_digest_check
    m id user (output_path : option string) w a :
  artefacts (db w) !! id = Some a ->
  (forall e,
     EncryptionManager.decrypt_data (encryption m) (encrypted_data a) = Raise e ->
     ArtefactManager.get_artefact_data m id user output_path w
     = (Ok None, set_console (console w ++ [retrieval_error_line e]) w)
     /\ retrieval_error_line e <> integrity_violation_line)
  /\ (forall key nonce ct t,
        encryption m = EncMgr AES256GCMStrategy.make (Some key) ->
        List.length key = 32%nat -> List.length nonce = 12%nat ->
        List.length t = 16%nat ->
        encrypted_data a = nonce ++ ct ++ t ->
        t <> GCM.tag key nonce [] ct ->
        ArtefactManager.get_artefact_data m id user output_path w
        = (Ok None, set_console (console w ++ [authentication_failure_line]) w))
  /\ retrieval_error_line InvalidTag = authentication_failure_line
  /\ authentication_failure_line <> integrity_violation_line.
Proof.
  intros Hrow.
  assert (Hraise : forall e,
            EncryptionManager.decrypt_data (encryption m) (encrypted_data a) = Raise e ->
            ArtefactManager.get_artefact_data m id user output_path w
            = (Ok None, set_console (console w ++ [retrieval_error_line e]) w)).
  { intros e Hdec.
    unfold ArtefactManager.get_artefact_data, bind, DatabaseManager.get_artefact.
    rewrite Hrow. cbn [can_view_artefact negb].
    unfold try_except, ArtefactManager.decrypt_data, lift_result. rewrite Hdec.
    reflexivity. }
  split; [| split; [| split; [reflexivity | discriminate]]].
  - intros e Hdec. split; [apply Hraise; exact Hdec |].
    unfold retrieval_error_line. discriminate.
  - intros key nonce ct t Hm Hk Hn Ht Hpay Hne.
    apply (Hraise InvalidTag).
    rewrite Hm, Hpay. unfold EncryptionManager.decrypt_data.
    cbn [_key strategy decrypt AES256GCMStrategy.make].
    apply strategy_decrypt_wrong_tag; assumption.
Qed.

Lemma authentication_failure_precedes_digest_check_witness :
  ArtefactManager.get_artefact_data Demo.mgr 1 Demo.alice (Some "out.bin")
    (Demo.put_row Demo.corrupted_row Demo.w1)
  = (Ok None,
     set_console (console (Demo.put_row Demo.corrupted_row Demo.w1)
                  ++ [retrieval_error_line InvalidTag])
       (Demo.put_row Demo.corrupted_row Demo.w1))
  /\ ArtefactManager.get_artefact_data Demo.mgr 1 Demo.alice (Some "out.bin")
       (Demo.put_row Demo.retagged_row Demo.w1)
     = (Ok None,
        set_console (console (Demo.put_row Demo.retagged_row Demo.w1)
                     ++ [authentication_failure_line])
          (Demo.put_row Demo.retagged_row Demo.w1)).
Proof.
  destruct (authentication_failure_precedes_digest_check Demo.mgr 1 Demo.alice
              (Some "out.bin") (Demo.put_row Demo.corrupted_row Demo.w1)
              Demo.corrupted_row) as [Hraise _]; [vm_compute; reflexivity |].
  destruct (authentication_failure_precedes_digest_check Demo.mgr 1 Demo.alice
              (Some "out.bin") (Demo.put_row Demo.retagged_row Demo.w1)
              Demo.retagged_row) as (_ & Htag & _); [vm_compute; reflexivity |].
  split.
  - apply (Hraise InvalidTag). vm_compute. reflexivity.
  - apply (Htag Demo.key (firstn 12 Demo.stored_payload)
             (firstn 5 (skipn 12 Demo.stored_payload)) (Bytes.zeros 16)).
    + reflexivity.
    + reflexivity.
    + vm_compute. reflexivity.
    + reflexivity.
    + vm_compute. reflexivity.
    + vm_compute. discriminate.
Defined.

(** ** artefact_manager.py: which failures cross the manager boundary *)

(** The three lemmas that follow are about the operations as modelled,
    those on identifiers SQLite can hold (see [in_int64]); the theorems
    built on them state that range. *)
Lemma never_raises_read_artefact m id user :
  never_raises (ArtefactManager.read_artefact m id user).
Proof.
  unfold ArtefactManager.read_artefact.
  apply never_raises_bind; [auto with frame |].
  intros [a |]; [| auto with frame].
  destruct (negb (can_view_artefact user (owner_id a))); auto with frame.
Qed.

Lemma never_raises_get_artefact_data m id user out :
  never_raises (ArtefactManager.get_artefact_data m id user out).
Proof.
  unfold ArtefactManager.get_artefact_data.
  apply never_raises_bind; [auto with frame |].
  intros [a |]; [| auto with frame].
  destruct (negb (can_view_artefact user (owner_id a))); [auto with frame |].
  apply never_raises_try_except. intros e.
  apply never_raises_bind; auto with frame.
Qed.

Lemma never_raises_delete m id user :
  never_raises (ArtefactManager.delete_artefact m id user).
Proof.
  unfold ArtefactManager.delete_artefact.
  apply never_raises_bind; [auto with frame |].
  intros [a |]; [| auto with frame].
  destruct (negb (can_delete_artefact user (owner_id a))); [| auto with frame].
  apply never_raises_bind; auto with frame.
Qed.

Lemma create_artefact_guarded m owner path name type w :
  type ∈ ["lyrics"; "score"; "audio"] -> is_Some (fs w !! path) ->
  returns_normally (ArtefactManager.create_artefact m owner path name type) w.
Proof.
  intros Htype Hfile. unfold ArtefactManager.create_artefact.
  rewrite bool_decide_eq_true_2 by assumption. cbn [negb].
  unfold returns_normally, bind at 1, path_exists.
  rewrite bool_decide_eq_true_2 by assumption. cbn [negb].
  apply never_raises_try_except. intros e.
  apply never_raises_bind; auto with frame.
Qed.

(** The claim C6 as stated fails: an invalid artefact type makes
    [create_artefact] raise [ValueError] to its caller. *)
Lemma invalid_type_escapes_create :
  fst (ArtefactManager.create_artefact Demo.mgr Demo.alice "a.txt" "song" "video" Demo.w0)
  = Raise (ValueError "Artefact type must be 'lyrics', 'score', or 'audio'")
  /\ ~ returns_normally
         (ArtefactManager.create_artefact Demo.mgr Demo.alice "a.txt" "song" "video")
         Demo.w0.
Proof.
  assert (H : fst (ArtefactManager.create_artefact Demo.mgr Demo.alice "a.txt" "song"
                     "video" Demo.w0)
              = Raise (ValueError "Artefact type must be 'lyrics', 'score', or 'audio'"))
    by (vm_compute; reflexivity).
  split; [exact H |].
  intros [v Hv]. rewrite H in Hv. discriminate.
Qed.

(** C6, amended. For an artefact identifier the database can look up
    (an integer of the signed 64-bit range), not-found and permission-denied
    failures never leave the manager as exceptions: [read_artefact],
    [get_artefact_data] and [delete_artefact] always return a value, which
    is [None] / [False] when the artefact is missing or deletion is denied,
    and [update_artefact] returns [False] when the artefact is missing or
    the caller may not modify it.  An invalid artefact type makes
    [create_artefact] raise [ValueError], and a missing source file makes
    [create_artefact] and (for an existing artefact the caller may modify)
    [update_artefact] raise [FileNotFoundError]; with a valid type and an
    existing source path both return a value. *)
Theorem failures_at_manager_boundary
    m id user (owner : User) (path name type : string)
    (output_path : option string) w :
  in_int64 id ->
  returns_normally (ArtefactManager.read_artefact m id user) w
  /\ returns_normally (ArtefactManager.get_artefact_data m id user output_path) w
  /\ returns_normally (ArtefactManager.delete_artefact m id user) w
  /\ (artefacts (db w) !! id = None ->
        fst (ArtefactManager.read_artefact m id user w) = Ok None
        /\ fst (ArtefactManager.get_artefact_data m id user output_path w) = Ok None
        /\ fst (ArtefactManager.delete_artefact m id user w) = Ok false
        /\ fst (ArtefactManager.update_artefact m id path user w) = Ok false)
  /\ (forall a, artefacts (db w) !! id = Some a ->
        can_delete_artefact user (owner_id a) = false ->
        fst (ArtefactManager.delete_artefact m id user w) = Ok false)
  /\ (forall a, artefacts (db w) !! id = Some a ->
        can_modify_artefact user (owner_id a) = false ->
        fst (ArtefactManager.update_artefact m id path user w) = Ok false)
  /\ (forall a, artefacts (db w) !! id = Some a ->
        can_modify_artefact user (owner_id a) = true ->
        fs w !! path = None ->
        fst (ArtefactManager.update_artefact m id path user w)
        = Raise (FileNotFoundError ("File not found: " +:+ path)))
  /\ (forall a, artefacts (db w) !! id = Some a ->
        can_modify_artefact user (owner_id a) = true ->
        is_Some (fs w !! path) ->
        returns_normally (ArtefactManager.update_artefact m id path user) w)
  /\ (type ∉ ["lyrics"; "score"; "audio"] ->
        fst (ArtefactManager.create_artefact m owner path name type w)
        = Raise (ValueError "Artefact type must be 'lyrics', 'score', or 'audio'"))
  /\ (type ∈ ["lyrics"; "score"; "audio"] -> fs w !! path = None ->
        fst (ArtefactManager.create_artefact m owner path name type w)
        = Raise (FileNotFoundError ("File not found: " +:+ path)))
  /\ (type ∈ ["lyrics"; "score"; "audio"] -> is_Some (fs w !! path) ->
        returns_normally (ArtefactManager.create_artefact m owner path name type) w).
Proof.
  intros _.
  split; [apply never_raises_read_artefact |].
  split; [apply never_raises_get_artefact_data |].
  split; [apply never_raises_delete |].
  split.
  { intros Hnone. rewrite update_artefact_run, Hnone.
    unfold ArtefactManager.read_artefact, ArtefactManager.get_artefact_data,
      ArtefactManager.delete_artefact, bind, DatabaseManager.get_artefact.
    rewrite Hnone. repeat split. }
  split.
  { intros a Hrow Hden.
    unfold ArtefactManager.delete_artefact, bind, DatabaseManager.get_artefact.
    rewrite Hrow, Hden. reflexivity. }
  split; [intros a Hrow Hden; rewrite update_artefact_run, Hrow, Hden; reflexivity |].
  split; [intros a Hrow Hmay Hmiss;
          rewrite update_artefact_run, Hrow, Hmay, Hmiss; reflexivity |].
  split.
  { intros a Hrow Hmay [node Hnode]. unfold returns_normally.
    rewrite update_artefact_run, Hrow, Hmay, Hnode.
    destruct node as [data |]; [| eexists; reflexivity].
    destruct (EncryptionManager.encrypt_data (encryption m) data (pool w))
      as [[payload | e] p]; eexists; reflexivity. }
  split.
  { intros Htype. unfold ArtefactManager.create_artefact.
    rewrite bool_decide_eq_false_2 by assumption. reflexivity. }
  split; [| apply create_artefact_guarded].
  intros Htype Hmiss. unfold ArtefactManager.create_artefact.
  rewrite bool_decide_eq_true_2 by assumption. cbn [negb].
  unfold bind, path_exists. rewrite Hmiss.
  rewrite bool_decide_eq_false_2 by (intros [? ?]; discriminate). reflexivity.
Qed.

Lemma failures_at_manager_boundary_witness :
  fst (ArtefactManager.get_artefact_data Demo.mgr 7 Demo.alice None Demo.w1) = Ok None
  /\ fst (ArtefactManager.update_artefact Demo.mgr 7 "b.txt" Demo.alice Demo.w1) = Ok false
  /\ fst (ArtefactManager.delete_artefact Demo.mgr 1 Demo.bob Demo.w1) = Ok false
  /\ fst (ArtefactManager.update_artefact Demo.mgr 1 "b.txt" Demo.bob Demo.w1) = Ok false
  /\ fst (ArtefactManager.update_artefact Demo.mgr 1 "none.txt" Demo.alice Demo.w1)
     = Raise (FileNotFoundError "File not found: none.txt")
  /\ returns_normally (ArtefactManager.update_artefact Demo.mgr 1 "music" Demo.alice)
       Demo.w1
  /\ fst (ArtefactManager.create_artefact Demo.mgr Demo.alice "b.txt" "song" "video"
            Demo.w1)
     = Raise (ValueError "Artefact type must be 'lyrics', 'score', or 'audio'")
  /\ fst (ArtefactManager.create_artefact Demo.mgr Demo.alice "none.txt" "song" "score"
            Demo.w1)
     = Raise (FileNotFoundError "File not found: none.txt")
  /\ returns_normally
       (ArtefactManager.create_artefact Demo.mgr Demo.alice "music" "song" "score")
       Demo.w1.
Proof.
  assert (H1 : in_int64 1) by (unfold in_int64; lia).
  assert (H7 : in_int64 7) by (unfold in_int64; lia).
  destruct (failures_at_manager_boundary Demo.mgr 7 Demo.alice Demo.alice
              "b.txt" "song" "video" None Demo.w1 H7)
    as (_ & _ & _ & Hmissing & _ & _ & _ & _ & Hbadtype & _).
  destruct (failures_at_manager_boundary Demo.mgr 1 Demo.bob Demo.alice
              "b.txt" "song" "score" None Demo.w1 H1)
    as (_ & _ & _ & _ & Hnodelete & Hdenied & _).
  destruct (failures_at_manager_boundary Demo.mgr 1 Demo.alice Demo.alice
              "none.txt" "song" "score" None Demo.w1 H1)
    as (_ & _ & _ & _ & _ & _ & Hnofile & _ & _ & Hnosource & _).
  destruct (failures_at_manager_boundary Demo.mgr 1 Demo.alice Demo.alice
              "music" "song" "score" None Demo.w1 H1)
    as (_ & _ & _ & _ & _ & _ & _ & Hdir & _ & _ & Hcreate).
  destruct Hmissing as (_ & Hget & _ & Hupd); [vm_compute; reflexivity |].
  split; [exact Hget |].
  split; [exact Hupd |].
  split; [eapply Hnodelete; vm_compute; reflexivity |].
  split; [eapply Hdenied; vm_compute; reflexivity |].
  split; [eapply Hnofile; vm_compute; reflexivity |].
  split; [eapply Hdir; [vm_compute; reflexivity .. | eexists; vm_compute; reflexivity] |].
  split; [apply Hbadtype; apply (bool_decide_unpack _); vm_compute; exact I |].
  split; [apply Hnosource;
          [apply (bool_decide_unpack _); vm_compute; exact I | vm_compute; reflexivity] |].
  apply Hcreate;
    [apply (bool_decide_unpack _); vm_compute; exact I | eexists; vm_compute; reflexivity].
Defined.

(** ** Supporting facts *)

(** A payload produced by [encrypt] whose last 16 bytes (the tag) have been
    replaced by any other 16 bytes is rejected with [InvalidTag]. *)
Lemma tampered_tag_is_rejected (p k t : list byte) (e : entropy_pool) :
  List.length k = 32%nat -> List.length t = 16%nat ->
  let nonce := fst (urandom 12 e) in
  let ct := GCM.gctr k (GCM.inc32_by (GCM.j0 k nonce) 1) p in
  fst (AES256GCMStrategy.encrypt p k e) = Ok (nonce ++ ct ++ GCM.tag k nonce [] ct)
  /\ (t <> GCM.tag k nonce [] ct ->
      AES256GCMStrategy.decrypt (nonce ++ ct ++ t) k = Raise InvalidTag).
Proof.
  intros Hk Ht nonce ct. split.
  - rewrite strategy_encrypt_eq by assumption. reflexivity.
  - intros Hne. unfold AES256GCMStrategy.decrypt.
    rewrite aesgcm_new_32 by assumption.
    assert (Hn : List.length nonce = 12%nat) by apply length_urandom.
    rewrite take_app_length', drop_app_length' by (symmetry; assumption).
    unfold AESGCM.decrypt. rewrite check_nonce_12 by assumption.
    cbn [AESGCM.associated]. rewrite ad_rejects_wrong_tag by assumption.
    reflexivity.
Qed.

(** Whatever [encrypt_data] returns under a 32-byte key, [decrypt_data]
    of the same manager turns back into the data. *)
Lemma manager_round_trip (key data : list byte) (e : entropy_pool) :
  List.length key = 32%nat ->
  let m := EncMgr AES256GCMStrategy.make (Some key) in
  exists payload,
    fst (EncryptionManager.encrypt_data m data e) = Ok payload
    /\ EncryptionManager.decrypt_data m payload = Ok data.
Proof.
  intros Hk m.
  destruct (encrypt_decrypt_round_trip_at data key e Hk) as [payload [Henc Hdec]].
  exists payload. split; assumption.
Qed.

(** Every way of installing a key leaves the manager with a 32-byte key. *)
Lemma length_hmac_sha256 (key msg : list byte) :
  List.length (PBKDF2.hmac_sha256 key msg) = 32%nat.
Proof. unfold PBKDF2.hmac_sha256. apply length_digest. Qed.

Lemma length_pbkdf2 (password salt : list byte) (iterations : nat) :
  List.length (PBKDF2.pbkdf2_hmac_sha256 password salt iterations) = 32%nat.
Proof.
  unfold PBKDF2.pbkdf2_hmac_sha256.
  set (u1 := PBKDF2.hmac_sha256 password (salt ++ Bytes.be_encode 4 1)).
  set (step := fun '(t, u) =>
                 let u' := PBKDF2.hmac_sha256 password u in (Bytes.xor_list t u', u')).
  assert (Hinv : forall n, List.length (fst (Nat.iter n step (u1, u1))) = 32%nat).
  { induction n as [| n IH].
    - exact (length_hmac_sha256 _ _).
    - rewrite Nat.iter_succ.
      destruct (Nat.iter n step (u1, u1)) as [t u]. cbn [fst] in IH.
      unfold step. cbn [fst].
      rewrite length_xor_list, IH, (length_hmac_sha256 password u). reflexivity. }
  apply Hinv.
Qed.

Lemma installed_key_has_32_bytes (m : EncryptionManager) (e : entropy_pool)
    (key : list byte) (password : string) :
  (forall m', EncryptionManager.set_key key m = Ok m' ->
              exists k, _key m' = Some k /\ List.length k = 32%nat)
  /\ (exists k, _key (snd (fst (EncryptionManager.generate_key m e))) = Some k
                /\ List.length k = 32%nat)
  /\ (exists k, _key (snd (EncryptionManager.derive_key_from_password password m)) = Some k
                /\ List.length k = 32%nat).
Proof.
  split; [| split].
  - intros m' Hset. unfold EncryptionManager.set_key in Hset.
    destruct (Nat.eqb_spec (List.length key) 32) as [Hlen | Hlen]; simpl in Hset.
    + injection Hset as <-. exists key. split; [reflexivity | assumption].
    + discriminate.
  - unfold EncryptionManager.generate_key.
    destruct (urandom 32 e) as [k e'] eqn:Eu. simpl.
    exists k. split; [reflexivity |].
    change k with (fst (k, e')). rewrite <- Eu. apply length_urandom.
  - unfold EncryptionManager.derive_key_from_password. cbn [snd _key].
    eexists. split; [reflexivity |].
    rewrite length_take, length_pbkdf2. reflexivity.
Qed.

(** The class of the principal is fixed from the role tag at registration
    and at login. *)
Lemma register_user_class (username password role : string) (w : world) (u : User) :
  fst (UserManager.register_user username password role w) = Ok u ->
  _role u = role
  /\ (class_of u = ClassAdminUser <-> role = "admin")
  /\ (class_of u = ClassUser <-> role = "user").
Proof.
  unfold UserManager.register_user.
  destruct (bool_decide (role ∈ ["admin"; "user"])) eqn:Hrole; cbn [negb];
    [| discriminate].
  apply bool_decide_eq_true_1 in Hrole.
  unfold bind.
  destruct (DatabaseManager.create_user username (UserManager.hash_password password)
              role w) as [[uid | e] w']; [| discriminate].
  destruct (bool_decide (role = "admin")) eqn:Hadmin; cbn [ret fst];
    intros [= <-]; cbn [_role class_of].
  - apply bool_decide_eq_true_1 in Hadmin. subst role.
    split; [reflexivity |]. split; split; intros; try reflexivity; discriminate.
  - apply bool_decide_eq_false_1 in Hadmin.
    assert (role = "user") as ->.
    { apply elem_of_cons in Hrole as [-> | Hrole]; [contradiction |].
      apply elem_of_cons in Hrole as [-> | Hrole]; [reflexivity |].
      apply elem_of_nil in Hrole. contradiction. }
    split; [reflexivity |]. split; split; intros; try reflexivity; discriminate.
Qed.

(** ** Runs of the specification's scenarios *)

Example scenario_upload :
  fst (ArtefactManager.create_artefact Demo.mgr Demo.alice "a.txt" "song" "lyrics" Demo.w0)
  = Ok (Some 1)
  /\ (checksum <$> artefacts (db Demo.w1) !! 1)
     = Some "2cf24dba5fb0a30e26e83b2ac5b9e29e1b161e5c1fa7425e73043362938b9824"
  /\ (modified_at <$> artefacts (db Demo.w1) !! 1) = Some None
  /\ Demo.stored_payload <> Bytes.of_string "hello"
  /\ notified Demo.w1 = [].
Proof. vm_compute. repeat split; discriminate. Qed.

Example scenario_retrieve :
  fst (ArtefactManager.get_artefact_data Demo.mgr 1 Demo.bob (Some "out.bin") Demo.w1)
  = Ok (Some (Bytes.of_string "hello"))
  /\ fs (snd (ArtefactManager.get_artefact_data Demo.mgr 1 Demo.bob (Some "out.bin")
                Demo.w1)) !! "out.bin"
     = Some (FsFile (Bytes.of_string "hello")).
Proof. vm_compute. split; reflexivity. Qed.

Example scenario_update :
  let out := ArtefactManager.update_artefact Demo.mgr 1 "b.txt" Demo.alice Demo.w1 in
  fst out = Ok true
  /\ (checksum <$> artefacts (db (snd out)) !! 1)
     = Some (SHA256.hexdigest (Bytes.of_string "world"))
  /\ (modified_at <$> artefacts (db (snd out)) !! 1) = Some (Some (Demo.clock 1))
  /\ List.length (notified (snd out)) = 2%nat.
Proof. vm_compute. repeat split. Qed.

Example scenario_corrupted_payload :
  EncryptionManager.decrypt_data Demo.enc (encrypted_data Demo.corrupted_row)
  = Raise InvalidTag
  /\ EncryptionManager.decrypt_data Demo.enc Demo.stored_payload
     = Ok (Bytes.of_string "hello").
Proof. vm_compute. split; reflexivity. Qed.

Example scenario_delete_user_cascade :
  let out := DatabaseManager.delete_user 1 Demo.w1 in
  artefacts (db (snd out)) !! 1 = None
  /\ fst (ArtefactManager.get_artefact_data Demo.mgr 1 Demo.alice None (snd out))
     = Ok None.
Proof. vm_compute. split; reflexivity. Qed.

(** * Further properties of the modules *)

(** ** What each run of the other manager operations does *)

Lemma create_artefact_run m owner path name type w :
  ArtefactManager.create_artefact m owner path name type w
  = if bool_decide (type ∈ ["lyrics"; "score"; "audio"]) then
      match fs w !! path with
      | None => (Raise (FileNotFoundError ("File not found: " +:+ path)), w)
      | Some FsDir =>
          (Ok None,
           set_console
             (console w
              ++ ["Error creating artefact: "
                  +:+ ("[Errno 21] Is a directory: '" +:+ path +:+ "'")]) w)
      | Some (FsFile data) =>
          match EncryptionManager.encrypt_data (encryption m) data (pool w) with
          | (Raise e, p) =>
              (Ok None,
               set_console (console w ++ ["Error creating artefact: " +:+ exn_str e])
                 (set_pool p w))
          | (Ok payload, p) =>
              (Ok (Some (artefacts_seq (db w) + 1)),
               after_create owner path name type data payload p w)
          end
      end
    else (Raise (ValueError "Artefact type must be 'lyrics', 'score', or 'audio'"), w).
Proof.
  unfold ArtefactManager.create_artefact.
  destruct (bool_decide (type ∈ ["lyrics"; "score"; "audio"])) eqn:Htype;
    cbn [negb]; [| reflexivity].
  unfold bind at 1, path_exists.
  destruct (fs w !! path) as [[data |] |] eqn:Ef; cbn [negb bool_decide]; try reflexivity.
  - rewrite bool_decide_eq_true_2 by eauto. cbn [negb].
    unfold try_except, bind at 1, read_file. rewrite Ef.
    unfold bind at 1, ArtefactManager.encrypt_data.
    destruct (EncryptionManager.encrypt_data (encryption m) data (pool w))
      as [[payload | e] p] eqn:Ee; [| reflexivity].
    unfold bind, print, DatabaseManager.create_artefact, now_isoformat, bind, ret.
    cbv [set_console set_pool set_ticks set_db console fs clock ticks pool db notified].
    rewrite Htype. cbn [negb].
    unfold after_create, upload_lines, created_row.
    rewrite <- !app_assoc. reflexivity.
  - rewrite bool_decide_eq_true_2 by eauto. cbn [negb].
    unfold try_except, bind at 1, read_file. rewrite Ef. reflexivity.
Qed.

Lemma get_artefact_data_run m id user output_path w :
  ArtefactManager.get_artefact_data m id user output_path w
  = match artefacts (db w) !! id with
    | None => (Ok None, w)
    | Some a =>
        match EncryptionManager.decrypt_data (encryption m) (encrypted_data a) with
        | Raise e =>
            (Ok None, set_console (console w ++ [retrieval_error_line e]) w)
        | Ok d =>
            if bool_decide (ChecksumManager.calculate_checksum d = checksum a) then
              match sink output_path with
              | None =>
                  (Ok (Some d),
                   set_console (console w ++ verification_lines a d ++ passed_lines) w)
              | Some p =>
                  match fs w !! p with
                  | Some FsDir =>
                      (Ok None,
                       set_console
                         (console w ++ verification_lines a d ++ passed_lines
                          ++ [retrieval_error_line
                                (IsADirectoryError
                                   ("[Errno 21] Is a directory: '" +:+ p +:+ "'"))]) w)
                  | _ =>
                      (Ok (Some d),
                       set_fs (<[p := FsFile d]> (fs w))
                         (set_console
                            (console w ++ verification_lines a d ++ passed_lines) w))
                  end
              end
            else
              (Ok None,
               set_console
                 (console w ++ verification_lines a d
                  ++ [integrity_violation_line; rule]) w)
        end
    end.
Proof.
  unfold ArtefactManager.get_artefact_data, bind at 1, DatabaseManager.get_artefact.
  destruct (artefacts (db w) !! id) as [a |] eqn:Ea; [| reflexivity].
  cbn [can_view_artefact negb].
  unfold try_except, bind at 1, ArtefactManager.decrypt_data, lift_result.
  destruct (EncryptionManager.decrypt_data (encryption m) (encrypted_data a))
    as [d | e] eqn:Ed; [| reflexivity].
  destruct (bool_decide (ChecksumManager.calculate_checksum d = checksum a)) eqn:Hsum;
    cbn [negb].
  - unfold sink.
    destruct output_path as [p |]; [destruct (bool_decide (p = "")) eqn:Hp |].
    + unfold bind, print, ret.
      cbv [set_console console fs clock ticks pool db notified
           verification_lines passed_lines].
      rewrite <- !app_assoc. reflexivity.
    + unfold bind, print, ret, write_file.
      cbv [set_console set_fs console fs clock ticks pool db notified
           verification_lines passed_lines].
      destruct w as [wfs wcon wclock wticks wpool wdb wnot]. cbn [fs].
      destruct (wfs !! p) as [[content |] |];
        cbv [set_console set_fs console fs clock ticks pool db notified
             retrieval_error_line exn_str];
        rewrite <- ?app_assoc; try reflexivity.
    + unfold bind, print, ret.
      cbv [set_console console fs clock ticks pool db notified
           verification_lines passed_lines].
      rewrite <- !app_assoc. reflexivity.
  - unfold bind, print, ret.
    cbv [set_console console fs clock ticks pool db notified
         verification_lines integrity_violation_line].
    rewrite <- !app_assoc. reflexivity.
Qed.

Lemma delete_artefact_run m id user w :
  ArtefactManager.delete_artefact m id user w
  = match artefacts (db w) !! id with
    | None => (Ok false, w)
    | Some a =>
        if can_delete_artefact user (owner_id a) then
          (Ok true,
           set_db (Database (users (db w)) (users_seq (db w))
                     (delete id (artefacts (db w))) (artefacts_seq (db w))) w)
        else
          (Ok false,
           set_console
             (console w
              ++ ["Permission denied: You can only delete your own artefacts."]) w)
    end.
Proof.
  unfold ArtefactManager.delete_artefact, bind, DatabaseManager.get_artefact,
    DatabaseManager.delete_artefact.
  destruct (artefacts (db w) !! id) as [a |] eqn:Ea; [| reflexivity].
  destruct (can_delete_artefact user (owner_id a)); cbn [negb]; [| reflexivity].
  rewrite Ea. reflexivity.
Qed.

(** ** encryption.py: what [decrypt] accepts *)

Lemma ad_sound (key iv data aad p : list byte) :
  GCM.ad key iv data aad = Some p -> data = GCM.ae key iv p aad.
Proof.
  unfold GCM.ad. intros Had.
  destruct (List.length data <? 16)%nat; [discriminate |].
  set (n := (List.length data - 16)%nat) in *.
  destruct (decide (skipn n data = GCM.tag key iv aad (firstn n data))) as [Ht | _];
    [| discriminate].
  injection Had as <-. unfold GCM.ae.
  rewrite gctr_involutive, <- Ht. symmetry. apply take_drop.
Qed.

Lemma ad_short (key iv data aad : list byte) :
  (List.length data < 16)%nat -> GCM.ad key iv data aad = None.
Proof.
  intros Hlen. unfold GCM.ad.
  destruct (Nat.ltb_spec (List.length data) 16); [reflexivity | lia].
Qed.

(** A payload [decrypt] accepts under a 32-byte key is exactly what
    [encrypt] builds from the returned plaintext and the payload's own first
    12 bytes as nonce; it is 28 bytes longer than the plaintext. *)
Theorem accepted_payload_is_encryption (payload k p : list byte) :
  List.length k = 32%nat ->
  AES256GCMStrategy.decrypt payload k = Ok p ->
  payload = firstn 12 payload ++ GCM.ae k (firstn 12 payload) p []
  /\ List.length payload = (List.length p + 28)%nat.
Proof.
  intros Hk Hdec. unfold AES256GCMStrategy.decrypt in Hdec.
  rewrite aesgcm_new_32 in Hdec by assumption.
  unfold AESGCM.decrypt in Hdec.
  destruct (AESGCM.check_nonce (firstn 12 payload)); [| discriminate].
  cbn [AESGCM.associated] in Hdec.
  destruct (GCM.ad k (firstn 12 payload) (skipn 12 payload) []) as [p' |] eqn:Had;
    [| discriminate].
  injection Hdec as ->. apply ad_sound in Had.
  assert (Hpay : payload = firstn 12 payload ++ GCM.ae k (firstn 12 payload) p []).
  { rewrite <- Had. symmetry. apply take_drop. }
  split; [exact Hpay |].
  assert (Hdrop : List.length (skipn 12 payload) = (List.length p + 16)%nat)
    by (rewrite Had; apply length_ae).
  rewrite length_drop in Hdrop. lia.
Qed.

Lemma accepted_payload_is_encryption_witness :
  Demo.stored_payload
  = firstn 12 Demo.stored_payload
    ++ GCM.ae Demo.key (firstn 12 Demo.stored_payload) (Bytes.of_string "hello") []
  /\ List.length Demo.stored_payload
     = (List.length (Bytes.of_string "hello") + 28)%nat.
Proof.
  apply (accepted_payload_is_encryption Demo.stored_payload Demo.key
           (Bytes.of_string "hello")).
  - reflexivity.
  - vm_compute. reflexivity.
Defined.

(** A payload shorter than nonce plus tag (28 bytes; in particular the empty
    payload) is never decrypted: [decrypt] raises, with [InvalidTag] as soon
    as the payload holds 8 bytes. *)
Theorem short_payload_is_rejected (payload k : list byte) :
  List.length k = 32%nat -> (List.length payload < 28)%nat ->
  (exists e, AES256GCMStrategy.decrypt payload k = Raise e)
  /\ ((8 <= List.length payload)%nat ->
      AES256GCMStrategy.decrypt payload k = Raise InvalidTag).
Proof.
  intros Hk Hshort. unfold AES256GCMStrategy.decrypt.
  rewrite aesgcm_new_32 by assumption. unfold AESGCM.decrypt.
  assert (Had : GCM.ad k (firstn 12 payload) (skipn 12 payload) [] = None).
  { apply ad_short. rewrite length_drop. lia. }
  cbn [AESGCM.associated]. rewrite Had. split.
  - destruct (AESGCM.check_nonce (firstn 12 payload)); eexists; reflexivity.
  - intros Hlong. unfold AESGCM.check_nonce. rewrite length_take.
    destruct (Nat.ltb_spec (Nat.min 12 (List.length payload)) 8); [lia |].
    destruct (Nat.ltb_spec 128 (Nat.min 12 (List.length payload))); [lia |].
    reflexivity.
Qed.

Lemma short_payload_is_rejected_witness :
  (exists e, AES256GCMStrategy.decrypt [] Demo.key = Raise e)
  /\ AES256GCMStrategy.decrypt (firstn 27 Demo.stored_payload) Demo.key
     = Raise InvalidTag.
Proof.
  split.
  - apply (short_payload_is_rejected [] Demo.key); [reflexivity | simpl; lia].
  - apply (short_payload_is_rejected (firstn 27 Demo.stored_payload) Demo.key);
      [reflexivity | vm_compute; lia | vm_compute; lia].
Defined.

Lemma tampered_tag_is_rejected_witness :
  AES256GCMStrategy.decrypt
    (firstn 17 Demo.stored_payload ++ Bytes.zeros 16) Demo.key
  = Raise InvalidTag.
Proof.
  destruct (tampered_tag_is_rejected (Bytes.of_string "hello") Demo.key
              (Bytes.zeros 16) (EntropyPool Demo.tape 0)) as [_ Hrej];
    [reflexivity | reflexivity |].
  assert (Hne : Bytes.zeros 16
                <> GCM.tag Demo.key (fst (urandom 12 (EntropyPool Demo.tape 0))) []
                     (GCM.gctr Demo.key
                        (GCM.inc32_by
                           (GCM.j0 Demo.key (fst (urandom 12 (EntropyPool Demo.tape 0)))) 1)
                        (Bytes.of_string "hello")))
    by (vm_compute; discriminate).
  specialize (Hrej Hne).
  assert (Heq : firstn 17 Demo.stored_payload ++ Bytes.zeros 16
                = fst (urandom 12 (EntropyPool Demo.tape 0))
                  ++ GCM.gctr Demo.key
                       (GCM.inc32_by
                          (GCM.j0 Demo.key (fst (urandom 12 (EntropyPool Demo.tape 0)))) 1)
                       (Bytes.of_string "hello")
                  ++ Bytes.zeros 16)
    by (vm_compute; reflexivity).
  rewrite Heq. exact Hrej.
Defined.

Lemma installed_key_has_32_bytes_witness :
  (exists k, _key Demo.enc = Some k /\ List.length k = 32%nat)
  /\ (exists k,
        _key (snd (fst (EncryptionManager.generate_key
                          (EncMgr AES256GCMStrategy.make None)
                          (EntropyPool Demo.tape 0)))) = Some k
        /\ List.length k = 32%nat).
Proof.
  destruct (installed_key_has_32_bytes (EncMgr AES256GCMStrategy.make None)
              (EntropyPool Demo.tape 0) Demo.key "secret") as [Hset [Hgen _]].
  split; [apply Hset; reflexivity | exact Hgen].
Defined.

(** ** artefact_manager.py: retrieval *)

(** Whatever [get_artefact_data] returns as content is the decryption of the
    stored payload and has the stored digest; the file system differs from
    the one before only by the content written to the sink. *)
Theorem retrieval_is_sound m id user (output_path : option string) w (d : list byte) :
  fst (ArtefactManager.get_artefact_data m id user output_path w) = Ok (Some d) ->
  exists a,
    artefacts (db w) !! id = Some a
    /\ EncryptionManager.decrypt_data (encryption m) (encrypted_data a) = Ok d
    /\ ChecksumManager.calculate_checksum d = checksum a
    /\ fs (snd (ArtefactManager.get_artefact_data m id user output_path w))
       = match sink output_path with
         | Some p => <[p := FsFile d]> (fs w)
         | None => fs w
         end.
Proof.
  rewrite get_artefact_data_run.
  destruct (artefacts (db w) !! id) as [a |]; [| discriminate].
  destruct (EncryptionManager.decrypt_data (encryption m) (encrypted_data a))
    as [d' | e] eqn:Hd; [| discriminate].
  destruct (bool_decide (ChecksumManager.calculate_checksum d' = checksum a)) eqn:Hsum;
    [| discriminate].
  apply bool_decide_eq_true_1 in Hsum.
  destruct (sink output_path) as [p |].
  - destruct (fs w !! p) as [[content |] |]; cbn [fst snd]; intros [= <-];
      exists a; repeat split; assumption.
  - cbn [fst snd]. intros [= <-]. exists a. repeat split; assumption.
Qed.

Lemma retrieval_is_sound_witness :
  exists a,
    artefacts (db Demo.w1) !! 1 = Some a
    /\ EncryptionManager.decrypt_data (encryption Demo.mgr) (encrypted_data a)
       = Ok (Bytes.of_string "hello")
    /\ ChecksumManager.calculate_checksum (Bytes.of_string "hello") = checksum a
    /\ fs (snd (ArtefactManager.get_artefact_data Demo.mgr 1 Demo.bob (Some "out.bin")
                  Demo.w1))
       = <["out.bin" := FsFile (Bytes.of_string "hello")]> (fs Demo.w1).
Proof.
  apply (retrieval_is_sound Demo.mgr 1 Demo.bob (Some "out.bin") Demo.w1
           (Bytes.of_string "hello")).
  vm_compute. reflexivity.
Defined.

(** [get_artefact_data] never changes the database, the record of observer
    calls, the clock or the entropy pool; it leaves every path other than
    the sink as it was; whenever it returns [None], and whenever no output
    path or the empty output path is given, the file system is exactly what
    it was; for an identifier the database can look up it never raises. *)
Theorem retrieval_touches_only_the_sink m id user (output_path : option string) w :
  let out := ArtefactManager.get_artefact_data m id user output_path w in
  db (snd out) = db w
  /\ notified (snd out) = notified w
  /\ ticks (snd out) = ticks w
  /\ pool (snd out) = pool w
  /\ (forall q, sink output_path <> Some q -> fs (snd out) !! q = fs w !! q)
  /\ (fst out = Ok None -> fs (snd out) = fs w)
  /\ (output_path = None \/ output_path = Some "" -> fs (snd out) = fs w)
  /\ (in_int64 id ->
      returns_normally (ArtefactManager.get_artefact_data m id user output_path) w).
Proof.
  intros out. subst out. unfold returns_normally.
  rewrite get_artefact_data_run.
  assert (Hsink : output_path = None \/ output_path = Some "" -> sink output_path = None)
    by (intros [-> | ->]; reflexivity).
  destruct (artefacts (db w) !! id) as [a |];
    [| cbn [fst snd]; repeat split; eauto].
  destruct (EncryptionManager.decrypt_data (encryption m) (encrypted_data a))
    as [d | e]; [| cbn [fst snd]; repeat split; eauto].
  destruct (bool_decide (ChecksumManager.calculate_checksum d = checksum a));
    [| cbn [fst snd]; repeat split; eauto].
  destruct (sink output_path) as [p |]; [| cbn [fst snd]; repeat split; eauto; discriminate].
  destruct (fs w !! p) as [[content |] |] eqn:Ep; cbn [fst snd];
    repeat split; eauto; try discriminate;
    try (intros Hempty; apply Hsink in Hempty; discriminate);
    intros q Hq; cbn [set_fs fs]; apply lookup_insert_ne; congruence.
Qed.

Lemma retrieval_touches_only_the_sink_witness :
  fs (snd (ArtefactManager.get_artefact_data Demo.mgr 1 Demo.bob (Some "out.bin")
             Demo.w1)) !! "a.txt"
  = fs Demo.w1 !! "a.txt"
  /\ fs (snd (ArtefactManager.get_artefact_data Demo.mgr 1 Demo.bob (Some "music")
                Demo.w1))
     = fs Demo.w1.
Proof.
  destruct (retrieval_touches_only_the_sink Demo.mgr 1 Demo.bob (Some "out.bin") Demo.w1)
    as (_ & _ & _ & _ & Hother & _).
  destruct (retrieval_touches_only_the_sink Demo.mgr 1 Demo.bob (Some "music") Demo.w1)
    as (_ & _ & _ & _ & _ & Hnone & _).
  split.
  - apply Hother. vm_compute. discriminate.
  - apply Hnone. vm_compute. reflexivity.
Defined.

(** ** artefact_manager.py: upload, update and retrieval compose *)

Lemma manager_encrypt_eq (key : list byte) (obs : list observer) (data : list byte)
    (p : entropy_pool) :
  List.length key = 32%nat ->
  EncryptionManager.encrypt_data
    (encryption (ArtMgr (EncMgr AES256GCMStrategy.make (Some key)) obs)) data p
  = (Ok (fst (urandom 12 p) ++ GCM.ae key (fst (urandom 12 p)) data []),
     snd (urandom 12 p)).
Proof.
  intros Hk. unfold EncryptionManager.encrypt_data.
  cbn [encryption _key strategy encrypt AES256GCMStrategy.make].
  apply strategy_encrypt_eq. assumption.
Qed.

Lemma manager_decrypt_sealed (key : list byte) (obs : list observer) (data : list byte)
    (p : entropy_pool) :
  List.length key = 32%nat ->
  EncryptionManager.decrypt_data
    (encryption (ArtMgr (EncMgr AES256GCMStrategy.make (Some key)) obs))
    (fst (urandom 12 p) ++ GCM.ae key (fst (urandom 12 p)) data [])
  = Ok data.
Proof.
  intros Hk. unfold EncryptionManager.decrypt_data.
  cbn [encryption _key strategy decrypt AES256GCMStrategy.make].
  apply strategy_decrypt_sealed; [assumption | apply length_urandom].
Qed.

(** With a 32-byte key and an owner identifier and a next artefact
    identifier the database can store (signed 64-bit integers), uploading a
    readable file under a valid type returns a new identifier (the
    successor of the largest one handed out);
    every principal then reads the metadata given at upload, with the digest
    of the file and no modification time, and retrieves exactly the bytes of
    the file. *)
Theorem upload_then_retrieve
    (key : list byte) (obs : list observer) (owner reader : User)
    (path name type : string) (data : list byte) w :
  List.length key = 32%nat ->
  type ∈ ["lyrics"; "score"; "audio"] ->
  fs w !! path = Some (FsFile data) ->
  in_int64 (_user_id owner) ->
  in_int64 (artefacts_seq (db w) + 1) ->
  let m := ArtMgr (EncMgr AES256GCMStrategy.make (Some key)) obs in
  let id := artefacts_seq (db w) + 1 in
  let up := ArtefactManager.create_artefact m owner path name type w in
  fst up = Ok (Some id)
  /\ fst (ArtefactManager.read_artefact m id reader (snd up))
     = Ok (Some (ArtefactInfo id name type (clock w (ticks w)) None
                   (ChecksumManager.calculate_checksum data)))
  /\ fst (ArtefactManager.get_artefact_data m id reader None (snd up)) = Ok (Some data).
Proof.
  intros Hk Htype Hfile _ _ m id up. subst up m.
  rewrite create_artefact_run.
  rewrite bool_decide_eq_true_2 by assumption. rewrite Hfile.
  rewrite manager_encrypt_eq by assumption.
  cbn [fst snd]. split; [reflexivity |]. split.
  - unfold ArtefactManager.read_artefact, bind, DatabaseManager.get_artefact.
    unfold after_create. cbn [db artefacts]. fold id.
    rewrite lookup_insert_eq. reflexivity.
  - rewrite get_artefact_data_run.
    unfold after_create. cbn [db artefacts]. fold id.
    rewrite lookup_insert_eq. unfold created_row. cbn [encrypted_data checksum].
    rewrite manager_decrypt_sealed by assumption.
    rewrite bool_decide_eq_true_2 by reflexivity. reflexivity.
Qed.

Lemma upload_then_retrieve_witness :
  fst (ArtefactManager.create_artefact Demo.mgr Demo.alice "b.txt" "tune" "score"
         Demo.w1) = Ok (Some 2)
  /\ fst (ArtefactManager.get_artefact_data Demo.mgr 2 Demo.bob None
            (snd (ArtefactManager.create_artefact Demo.mgr Demo.alice "b.txt" "tune"
                    "score" Demo.w1)))
     = Ok (Some (Bytes.of_string "world")).
Proof.
  destruct (upload_then_retrieve Demo.key [Demo.stamper; Demo.logger] Demo.alice
              Demo.bob "b.txt" "tune" "score" (Bytes.of_string "world") Demo.w1)
    as (Hid & _ & Hget).
  - reflexivity.
  - apply (bool_decide_unpack _). vm_compute. exact I.
  - vm_compute. reflexivity.
  - unfold in_int64. vm_compute. split; [discriminate | reflexivity].
  - unfold in_int64. vm_compute. split; [discriminate | reflexivity].
  - split; [exact Hid | exact Hget].
Defined.

(** With a 32-byte key, an update of an existing artefact the caller may
    modify from a readable file returns [True]; afterwards the stored digest
    is the digest of the new file, the modification time is set, and every
    principal retrieves exactly the bytes of the new file. *)
Theorem update_then_retrieve
    (key : list byte) (obs : list observer) (user reader : User)
    (id : Z) (path : string) (a : artefact_row) (data : list byte) w :
  List.length key = 32%nat ->
  artefacts (db w) !! id = Some a ->
  can_modify_artefact user (owner_id a) = true ->
  fs w !! path = Some (FsFile data) ->
  let m := ArtMgr (EncMgr AES256GCMStrategy.make (Some key)) obs in
  let up := ArtefactManager.update_artefact m id path user w in
  fst up = Ok true
  /\ (checksum <$> artefacts (db (snd up)) !! id)
     = Some (ChecksumManager.calculate_checksum data)
  /\ (modified_at <$> artefacts (db (snd up)) !! id) = Some (Some (clock w (ticks w)))
  /\ fst (ArtefactManager.get_artefact_data m id reader None (snd up)) = Ok (Some data).
Proof.
  intros Hk Hrow Hmay Hfile m up. subst up m.
  rewrite update_artefact_run, Hrow, Hmay, Hfile.
  rewrite manager_encrypt_eq by assumption.
  cbn [fst snd]. split; [reflexivity |].
  rewrite get_artefact_data_run.
  unfold after_update. cbn [db artefacts]. rewrite !lookup_insert_eq.
  split; [reflexivity |]. split; [reflexivity |].
  unfold updated_row. cbn [encrypted_data checksum].
  rewrite manager_decrypt_sealed by assumption.
  rewrite bool_decide_eq_true_2 by reflexivity. reflexivity.
Qed.

Lemma update_then_retrieve_witness :
  fst (ArtefactManager.update_artefact Demo.mgr 1 "b.txt" Demo.root Demo.w1) = Ok true
  /\ fst (ArtefactManager.get_artefact_data Demo.mgr 1 Demo.bob None
            (snd (ArtefactManager.update_artefact Demo.mgr 1 "b.txt" Demo.root Demo.w1)))
     = Ok (Some (Bytes.of_string "world")).
Proof.
  destruct (artefacts (db Demo.w1) !! 1) as [a |] eqn:Ea;
    [| vm_compute in Ea; discriminate].
  destruct (update_then_retrieve Demo.key [Demo.stamper; Demo.logger] Demo.root
              Demo.bob 1 "b.txt" a (Bytes.of_string "world") Demo.w1)
    as (Hok & _ & _ & Hget).
  - reflexivity.
  - exact Ea.
  - reflexivity.
  - vm_compute. reflexivity.
  - split; [exact Hok | exact Hget].
Defined.

(** ** artefact_manager.py: what the writing operations do to the database *)

Lemma preserves_fs_create m owner path name type w :
  fs (snd (ArtefactManager.create_artefact m owner path name type w)) = fs w.
Proof.
  rewrite create_artefact_run. repeat case_match; reflexivity.
Qed.

Lemma create_outcomes m owner path name type w :
  let out := ArtefactManager.create_artefact m owner path name type w in
  ((forall id, fst out <> Ok (Some id)) /\ db (snd out) = db w)
  \/ (exists data payload p,
        fs w !! path = Some (FsFile data)
        /\ type ∈ ["lyrics"; "score"; "audio"]
        /\ EncryptionManager.encrypt_data (encryption m) data (pool w) = (Ok payload, p)
        /\ out = (Ok (Some (artefacts_seq (db w) + 1)),
                  after_create owner path name type data payload p w)).
Proof.
  intros out. subst out. rewrite create_artefact_run.
  destruct (bool_decide (type ∈ ["lyrics"; "score"; "audio"])) eqn:Htype;
    [| left; split; [discriminate | reflexivity]].
  apply bool_decide_eq_true_1 in Htype.
  destruct (fs w !! path) as [[data |] |] eqn:Ef;
    [| left; split; [discriminate | reflexivity] ..].
  destruct (EncryptionManager.encrypt_data (encryption m) data (pool w))
    as [[payload | e] p] eqn:Ee; [| left; split; [discriminate | reflexivity]].
  right. exists data, payload, p. auto.
Qed.

Lemma update_outcomes m id path user w :
  let out := ArtefactManager.update_artefact m id path user w in
  (fst out <> Ok true /\ db (snd out) = db w)
  \/ (exists a data payload p,
        artefacts (db w) !! id = Some a
        /\ can_modify_artefact user (owner_id a) = true
        /\ fs w !! path = Some (FsFile data)
        /\ EncryptionManager.encrypt_data (encryption m) data (pool w) = (Ok payload, p)
        /\ out = (Ok true, after_update m id a data payload p w)).
Proof.
  intros out. subst out. rewrite update_artefact_run.
  destruct (artefacts (db w) !! id) as [a |] eqn:Ea;
    [| left; split; [discriminate | reflexivity]].
  destruct (can_modify_artefact user (owner_id a)) eqn:Hmay;
    [| left; split; [discriminate | reflexivity]].
  destruct (fs w !! path) as [[data |] |] eqn:Ef;
    [| left; split; [discriminate | reflexivity] ..].
  destruct (EncryptionManager.encrypt_data (encryption m) data (pool w))
    as [[payload | e] p] eqn:Ee; [| left; split; [discriminate | reflexivity]].
  right. exists a, data, payload, p. auto.
Qed.

(** [create_artefact] is all or nothing on the database and never touches
    the file system or the users: unless it returns an identifier the
    database is exactly what it was; when it does, the identifier is the
    successor of the largest one handed out, the new row holds the owner,
    name, type and source path given, no modification time and the digest of
    the file read, and every other row is what it was. *)
Theorem create_is_all_or_nothing m owner path name type w :
  let out := ArtefactManager.create_artefact m owner path name type w in
  fs (snd out) = fs w
  /\ users (db (snd out)) = users (db w)
  /\ ((forall id, fst out <> Ok (Some id)) -> db (snd out) = db w)
  /\ (forall id, fst out = Ok (Some id) ->
        id = artefacts_seq (db w) + 1
        /\ artefacts_seq (db (snd out)) = id
        /\ (forall k, k <> id ->
              artefacts (db (snd out)) !! k = artefacts (db w) !! k)
        /\ exists data a,
             fs w !! path = Some (FsFile data)
             /\ artefacts (db (snd out)) !! id = Some a
             /\ artefact_id a = id /\ owner_id a = _user_id owner
             /\ artefact_name a = name /\ artefact_type a = type
             /\ file_path a = path /\ modified_at a = None
             /\ created_at a = clock w (ticks w)
             /\ checksum a = ChecksumManager.calculate_checksum data).
Proof.
  intros out.
  destruct (create_outcomes m owner path name type w)
    as [[Hno Hdb] | (data & payload & p & Hfile & Htype & Henc & Hout)];
    fold out in Hno, Hdb || fold out in Hout.
  - split; [apply (preserves_fs_create m owner path name type w) |].
    split; [rewrite Hdb; reflexivity |].
    split; [intros _; exact Hdb |].
    intros id Hid. exfalso. exact (Hno id Hid).
  - rewrite Hout. cbn [fst snd]. unfold after_create. cbn [fs db users artefacts artefacts_seq].
    split; [reflexivity |]. split; [reflexivity |].
    split; [intros Hno; exfalso; exact (Hno _ eq_refl) |].
    intros id [= <-].
    split; [reflexivity |]. split; [reflexivity |].
    split; [intros k Hk; apply lookup_insert_ne; congruence |].
    exists data. eexists. split; [exact Hfile |].
    split; [apply lookup_insert_eq |]. unfold created_row. cbn. repeat split.
Qed.

Lemma create_is_all_or_nothing_witness :
  db (snd (ArtefactManager.create_artefact Demo.mgr Demo.alice "music" "tune" "score"
             Demo.w1)) = db Demo.w1
  /\ artefacts (db (snd (ArtefactManager.create_artefact Demo.mgr Demo.alice "b.txt"
                           "tune" "score" Demo.w1))) !! 1
     = artefacts (db Demo.w1) !! 1.
Proof.
  destruct (create_is_all_or_nothing Demo.mgr Demo.alice "music" "tune" "score" Demo.w1)
    as (_ & _ & Hnone & _).
  destruct (create_is_all_or_nothing Demo.mgr Demo.alice "b.txt" "tune" "score" Demo.w1)
    as (_ & _ & _ & Hsome).
  split.
  - apply Hnone. intros id. vm_compute. discriminate.
  - destruct (Hsome 2) as (_ & _ & Hother & _); [vm_compute; reflexivity |].
    apply Hother. discriminate.
Defined.

(** [update_artefact] is all or nothing on the database and never touches
    the file system, the users or the identifier counter: unless it returns
    [True] the database is exactly what it was (whether it returns [False]
    or raises); when it does, the row keeps its identifier, owner, name,
    type, recorded source path and creation time, carries the digest of the
    file read and the modification time, and every other row is what it
    was. *)
Theorem update_is_all_or_nothing m id path user w :
  let out := ArtefactManager.update_artefact m id path user w in
  fs (snd out) = fs w
  /\ users (db (snd out)) = users (db w)
  /\ artefacts_seq (db (snd out)) = artefacts_seq (db w)
  /\ (fst out <> Ok true -> db (snd out) = db w)
  /\ (fst out = Ok true ->
        (forall k, k <> id -> artefacts (db (snd out)) !! k = artefacts (db w) !! k)
        /\ exists a a' data,
             artefacts (db w) !! id = Some a
             /\ can_modify_artefact user (owner_id a) = true
             /\ fs w !! path = Some (FsFile data)
             /\ artefacts (db (snd out)) !! id = Some a'
             /\ artefact_id a' = artefact_id a /\ owner_id a' = owner_id a
             /\ artefact_name a' = artefact_name a
             /\ artefact_type a' = artefact_type a
             /\ file_path a' = file_path a /\ created_at a' = created_at a
             /\ modified_at a' = Some (clock w (ticks w))
             /\ checksum a' = ChecksumManager.calculate_checksum data).
Proof.
  intros out.
  destruct (update_outcomes m id path user w)
    as [[Hno Hdb] | (a & data & payload & p & Hrow & Hmay & Hfile & Henc & Hout)];
    fold out in Hno, Hdb || fold out in Hout.
  - split.
    { subst out. rewrite update_artefact_run. repeat case_match; reflexivity. }
    rewrite Hdb. split; [reflexivity |]. split; [reflexivity |].
    split; [reflexivity |]. intros Hok. contradiction.
  - rewrite Hout. cbn [fst snd]. unfold after_update.
    cbn [fs db users artefacts artefacts_seq].
    split; [reflexivity |]. split; [reflexivity |]. split; [reflexivity |].
    split; [intros Hno; exfalso; exact (Hno eq_refl) |].
    intros _. split; [intros k Hk; apply lookup_insert_ne; congruence |].
    exists a. eexists. exists data.
    split; [exact Hrow |]. split; [exact Hmay |]. split; [exact Hfile |].
    split; [apply lookup_insert_eq |]. unfold updated_row. cbn. repeat split.
Qed.

Lemma update_is_all_or_nothing_witness :
  db (snd (ArtefactManager.update_artefact Demo.mgr 1 "none.txt" Demo.alice Demo.w1))
  = db Demo.w1
  /\ exists a',
       artefacts (db (snd (ArtefactManager.update_artefact Demo.mgr 1 "b.txt" Demo.root
                             Demo.w1))) !! 1 = Some a'
       /\ owner_id a' = 1 /\ file_path a' = "a.txt".
Proof.
  destruct (update_is_all_or_nothing Demo.mgr 1 "none.txt" Demo.alice Demo.w1)
    as (_ & _ & _ & Hfail & _).
  destruct (update_is_all_or_nothing Demo.mgr 1 "b.txt" Demo.root Demo.w1)
    as (_ & _ & _ & _ & Hok).
  split.
  - apply Hfail. vm_compute. discriminate.
  - destruct Hok as (_ & a & a' & data & Hrow & _ & _ & Hrow' & _ & Hown & _ & _ & Hpath & _);
      [vm_compute; reflexivity |].
    exists a'. split; [exact Hrow' |].
    assert (Hc : artefacts (db Demo.w1) !! 1 = Some Demo.created)
      by (vm_compute; reflexivity).
    rewrite Hc in Hrow. injection Hrow as <-.
    split; [rewrite Hown | rewrite Hpath]; reflexivity.
Defined.

(** ** artefact_manager.py: deletion *)

(** [delete_artefact] returns [True] exactly when the artefact exists and
    the caller may delete it; then that row, and only that row, is gone, and
    reading or retrieving the identifier afterwards gives [None].
    Otherwise the database is exactly what it was, and for an identifier the
    database can look up the result is [False].  Deletion never touches the
    file system or the users. *)
Theorem delete_removes_exactly_one_row m id user (reader : User)
    (output_path : option string) w :
  let out := ArtefactManager.delete_artefact m id user w in
  (fst out = Ok true
   <-> exists a, artefacts (db w) !! id = Some a
                 /\ can_delete_artefact user (owner_id a) = true)
  /\ (fst out = Ok true ->
        artefacts (db (snd out)) !! id = None
        /\ (forall k, k <> id -> artefacts (db (snd out)) !! k = artefacts (db w) !! k)
        /\ fst (ArtefactManager.read_artefact m id reader (snd out)) = Ok None
        /\ fst (ArtefactManager.get_artefact_data m id reader output_path (snd out))
           = Ok None)
  /\ (fst out <> Ok true -> db (snd out) = db w)
  /\ (in_int64 id -> fst out <> Ok true -> fst out = Ok false)
  /\ fs (snd out) = fs w
  /\ users (db (snd out)) = users (db w).
Proof.
  intros out. subst out. rewrite delete_artefact_run.
  destruct (artefacts (db w) !! id) as [a |] eqn:Ea.
  - destruct (can_delete_artefact user (owner_id a)) eqn:Hmay; cbn [fst snd].
    + split; [split; [intros _; exists a; auto | reflexivity] |].
      split.
      { intros _. cbn [set_db db artefacts].
        split; [apply lookup_delete_eq |].
        split; [intros k Hk; apply lookup_delete_ne; congruence |].
        rewrite get_artefact_data_run.
        unfold ArtefactManager.read_artefact, bind, DatabaseManager.get_artefact.
        cbn [set_db db artefacts]. rewrite lookup_delete_eq. split; reflexivity. }
      split; [intros Hno; exfalso; exact (Hno eq_refl) |].
      split; [intros _ Hno; exfalso; exact (Hno eq_refl) |].
      split; reflexivity.
    + split; [split; [discriminate | intros (a' & [= <-] & Hyes); congruence] |].
      split; [discriminate |].
      split; [intros _; reflexivity |].
      split; [intros _ _; reflexivity |]. split; reflexivity.
  - cbn [fst snd].
    split; [split; [discriminate | intros (a' & Hrow & _); discriminate] |].
    split; [discriminate |].
    split; [intros _; reflexivity |].
    split; [intros _ _; reflexivity |]. split; reflexivity.
Qed.

Lemma delete_removes_exactly_one_row_witness :
  fst (ArtefactManager.delete_artefact Demo.mgr 1 Demo.alice Demo.w1) = Ok true
  /\ fst (ArtefactManager.get_artefact_data Demo.mgr 1 Demo.alice None
            (snd (ArtefactManager.delete_artefact Demo.mgr 1 Demo.alice Demo.w1)))
     = Ok None
  /\ db (snd (ArtefactManager.delete_artefact Demo.mgr 1 Demo.bob Demo.w1)) = db Demo.w1
  /\ fst (ArtefactManager.delete_artefact Demo.mgr 1 Demo.bob Demo.w1) = Ok false.
Proof.
  destruct (delete_removes_exactly_one_row Demo.mgr 1 Demo.alice Demo.alice None Demo.w1)
    as (Hiff & Hgone & _).
  destruct (delete_removes_exactly_one_row Demo.mgr 1 Demo.bob Demo.alice None Demo.w1)
    as (_ & _ & Hkept & Hfalse & _).
  assert (Hok : fst (ArtefactManager.delete_artefact Demo.mgr 1 Demo.alice Demo.w1)
                = Ok true).
  { apply Hiff. exists Demo.created. split; vm_compute; reflexivity. }
  split; [exact Hok |].
  split; [apply Hgone; exact Hok |].
  split; [apply Hkept; vm_compute; discriminate |].
  apply Hfalse; [unfold in_int64; lia | vm_compute; discriminate].
Defined.

(** ** Invariants of the database *)

Lemma register_outcomes username password role w :
  let out := UserManager.register_user username password role w in
  ((exists e, fst out = Raise e) /\ snd out = w)
  \/ (role ∈ ["admin"; "user"]
      /\ ~ map_Exists (fun _ r => ur_username r = username) (users (db w))
      /\ out
         = (Ok (MkUser (if bool_decide (role = "admin") then ClassAdminUser
                        else ClassUser)
                  (users_seq (db w) + 1) username role),
            set_db
              (Database
                 (<[users_seq (db w) + 1 :=
                      UserRow (users_seq (db w) + 1) username
                        (UserManager.hash_password password) role]> (users (db w)))
                 (users_seq (db w) + 1) (artefacts (db w)) (artefacts_seq (db w))) w)).
Proof.
  intros out. subst out. unfold UserManager.register_user.
  destruct (bool_decide (role ∈ ["admin"; "user"])) eqn:Hrole; cbn [negb];
    [| left; split; [eexists; reflexivity | reflexivity]].
  unfold bind, DatabaseManager.create_user. rewrite Hrole. cbn [negb].
  rewrite orb_false_r.
  destruct (bool_decide (map_Exists (fun _ r => ur_username r = username)
                           (users (db w)))) eqn:Hdup;
    [left; split; [eexists; reflexivity | reflexivity] |].
  right. apply bool_decide_eq_true_1 in Hrole. apply bool_decide_eq_false_1 in Hdup.
  split; [assumption |]. split; [assumption |].
  destruct (bool_decide (role = "admin")); reflexivity.
Qed.

Lemma ids_bounded_insert_artefact (d : database) (a : artefact_row) :
  ids_bounded d -> artefact_id a = artefacts_seq d + 1 ->
  ids_bounded (Database (users d) (users_seq d)
                 (<[artefacts_seq d + 1 := a]> (artefacts d)) (artefacts_seq d + 1)).
Proof.
  intros [Ha Hu] Hid. split; cbn [artefacts artefacts_seq users users_seq]; [| exact Hu].
  intros k r Hk. apply lookup_insert_Some in Hk as [[<- <-] | [Hne Hk]].
  - split; [assumption | lia].
  - destruct (Ha k r Hk). split; [assumption | lia].
Qed.

Lemma ids_bounded_fresh (d : database) :
  ids_bounded d ->
  artefacts d !! (artefacts_seq d + 1) = None /\ users d !! (users_seq d + 1) = None.
Proof.
  intros [Ha Hu]. split.
  - destruct (artefacts d !! (artefacts_seq d + 1)) as [a |] eqn:E; [| reflexivity].
    destruct (Ha _ _ E). lia.
  - destruct (users d !! (users_seq d + 1)) as [r |] eqn:E; [| reflexivity].
    destruct (Hu _ _ E). lia.
Qed.

(** Identifiers are never reused.  If every key of the two tables is at most
    the largest key handed out (and every row's identifier column is its
    key), the same holds after any upload, update, deletion, registration or
    user deletion; consequently an identifier returned by [create_artefact]
    or [register_user] was not in use before, even when rows have been
    deleted in between. *)
Theorem identifiers_are_never_reused
    m (owner user : User) (path name type : string) (id uid : Z)
    (username password role : string) w :
  ids_bounded (db w) ->
  ids_bounded (db (snd (ArtefactManager.create_artefact m owner path name type w)))
  /\ ids_bounded (db (snd (ArtefactManager.update_artefact m id path user w)))
  /\ ids_bounded (db (snd (ArtefactManager.delete_artefact m id user w)))
  /\ ids_bounded (db (snd (UserManager.register_user username password role w)))
  /\ ids_bounded (db (snd (DatabaseManager.delete_user uid w)))
  /\ (forall id',
        fst (ArtefactManager.create_artefact m owner path name type w) = Ok (Some id') ->
        artefacts (db w) !! id' = None)
  /\ (forall u,
        fst (UserManager.register_user username password role w) = Ok u ->
        users (db w) !! _user_id u = None).
Proof.
  intros Hinv. pose proof (ids_bounded_fresh _ Hinv) as [Hfa Hfu].
  split; [| split; [| split; [| split; [| split; [| split]]]]].
  - destruct (create_outcomes m owner path name type w)
      as [[_ Hdb] | (data & payload & p & _ & _ & _ & Hout)].
    + rewrite Hdb. exact Hinv.
    + rewrite Hout. cbn [snd]. unfold after_create. cbn [db].
      apply ids_bounded_insert_artefact; [exact Hinv | reflexivity].
  - destruct (update_outcomes m id path user w)
      as [[_ Hdb] | (a & data & payload & p & Hrow & _ & _ & _ & Hout)].
    + rewrite Hdb. exact Hinv.
    + rewrite Hout. cbn [snd]. unfold after_update. cbn [db].
      destruct Hinv as [Ha Hu]. split; cbn [artefacts artefacts_seq users users_seq];
        [| exact Hu].
      intros k r Hk. apply lookup_insert_Some in Hk as [[<- <-] | [Hne Hk]].
      * unfold updated_row. cbn [artefact_id]. exact (Ha _ _ Hrow).
      * exact (Ha _ _ Hk).
  - rewrite delete_artefact_run.
    destruct (artefacts (db w) !! id) as [a |]; [| exact Hinv].
    destruct (can_delete_artefact user (owner_id a)); [| exact Hinv].
    cbn [snd set_db db]. destruct Hinv as [Ha Hu].
    split; cbn [artefacts artefacts_seq users users_seq]; [| exact Hu].
    intros k r Hk. apply lookup_delete_Some in Hk as [_ Hk]. exact (Ha _ _ Hk).
  - destruct (register_outcomes username password role w)
      as [[_ Hw] | (_ & _ & Hout)].
    + rewrite Hw. exact Hinv.
    + rewrite Hout. cbn [snd set_db db]. destruct Hinv as [Ha Hu].
      split; cbn [artefacts artefacts_seq users users_seq]; [exact Ha |].
      intros k r Hk. apply lookup_insert_Some in Hk as [[<- <-] | [Hne Hk]].
      * cbn [ur_user_id]. split; [reflexivity | lia].
      * destruct (Hu _ _ Hk). split; [assumption | lia].
  - unfold DatabaseManager.delete_user. cbn [snd set_db db]. destruct Hinv as [Ha Hu].
    split; cbn [artefacts artefacts_seq users users_seq].
    + intros k r Hk. apply map_lookup_filter_Some in Hk as [Hk _]. exact (Ha _ _ Hk).
    + intros k r Hk. apply lookup_delete_Some in Hk as [_ Hk]. exact (Hu _ _ Hk).
  - intros id' Hid.
    destruct (create_outcomes m owner path name type w)
      as [[Hno _] | (data & payload & p & _ & _ & _ & Hout)].
    + exfalso. exact (Hno id' Hid).
    + rewrite Hout in Hid. cbn [fst] in Hid. injection Hid as <-. exact Hfa.
  - intros u Hu'.
    destruct (register_outcomes username password role w)
      as [[[e He] _] | (_ & _ & Hout)].
    + rewrite He in Hu'. discriminate.
    + rewrite Hout in Hu'. cbn [fst] in Hu'. injection Hu' as <-. exact Hfu.
Qed.

Lemma identifiers_are_never_reused_witness :
  ids_bounded (db (snd (ArtefactManager.delete_artefact Demo.mgr 1 Demo.alice Demo.w1)))
  /\ artefacts (db Demo.w1) !! 2 = None.
Proof.
  assert (Hinv : ids_bounded (db Demo.w1)).
  { split; intros k r Hk.
    - assert (Hc : artefacts (db Demo.w1) = {[ 1 := Demo.created ]})
        by (vm_compute; reflexivity).
      rewrite Hc in Hk. apply lookup_singleton_Some in Hk as [<- <-].
      split; [reflexivity | vm_compute; discriminate].
    - assert (Hc : users (db Demo.w1) = ∅) by (vm_compute; reflexivity).
      rewrite Hc in Hk. rewrite lookup_empty in Hk. discriminate. }
  destruct (identifiers_are_never_reused Demo.mgr Demo.alice Demo.alice "b.txt" "tune"
              "score" 1 1 "carol" "secret" "user" Demo.w1 Hinv)
    as (_ & _ & Hdel & _ & _ & Hfresh & _).
  split; [exact Hdel |].
  apply Hfresh. vm_compute. reflexivity.
Defined.

(** Digest and payload stay together.  With a 32-byte key, if every stored
    payload decrypts to data having the stored digest, the same holds after
    any upload, update, deletion or user deletion through this manager; and
    on such a database every stored artefact is retrieved by every
    principal (no authentication failure, no digest mismatch). *)
Theorem stored_payloads_stay_consistent
    (key : list byte) (obs : list observer) (owner user : User)
    (path name type : string) (id uid : Z) w :
  List.length key = 32%nat ->
  payloads_consistent key (db w) ->
  let m := ArtMgr (EncMgr AES256GCMStrategy.make (Some key)) obs in
  payloads_consistent key
    (db (snd (ArtefactManager.create_artefact m owner path name type w)))
  /\ payloads_consistent key
       (db (snd (ArtefactManager.update_artefact m id path user w)))
  /\ payloads_consistent key (db (snd (ArtefactManager.delete_artefact m id user w)))
  /\ payloads_consistent key (db (snd (DatabaseManager.delete_user uid w)))
  /\ (forall a, artefacts (db w) !! id = Some a ->
        exists data,
          fst (ArtefactManager.get_artefact_data m id user None w) = Ok (Some data)
          /\ ChecksumManager.calculate_checksum data = checksum a).
Proof.
  intros Hk Hinv m.
  assert (Hsealed : forall data p,
            AES256GCMStrategy.decrypt
              (fst (urandom 12 p) ++ GCM.ae key (fst (urandom 12 p)) data []) key
            = Ok data).
  { intros data p. apply strategy_decrypt_sealed; [assumption | apply length_urandom]. }
  split; [| split; [| split; [| split]]].
  - destruct (create_outcomes m owner path name type w)
      as [[_ Hdb] | (data & payload & p & _ & _ & Henc & Hout)].
    + rewrite Hdb. exact Hinv.
    + unfold m in Henc. rewrite manager_encrypt_eq in Henc by assumption.
      injection Henc as <- <-.
      rewrite Hout. cbn [snd]. unfold after_create. cbn [db].
      intros k r Hr. cbn [artefacts] in Hr.
      apply lookup_insert_Some in Hr as [[_ <-] | [_ Hr]]; [| exact (Hinv _ _ Hr)].
      exists data. unfold created_row. cbn [encrypted_data checksum].
      split; [apply Hsealed | reflexivity].
  - destruct (update_outcomes m id path user w)
      as [[_ Hdb] | (a & data & payload & p & _ & _ & _ & Henc & Hout)].
    + rewrite Hdb. exact Hinv.
    + unfold m in Henc. rewrite manager_encrypt_eq in Henc by assumption.
      injection Henc as <- <-.
      rewrite Hout. cbn [snd]. unfold after_update. cbn [db].
      intros k r Hr. cbn [artefacts] in Hr.
      apply lookup_insert_Some in Hr as [[_ <-] | [_ Hr]]; [| exact (Hinv _ _ Hr)].
      exists data. unfold updated_row. cbn [encrypted_data checksum].
      split; [apply Hsealed | reflexivity].
  - rewrite delete_artefact_run.
    destruct (artefacts (db w) !! id) as [a |]; [| exact Hinv].
    destruct (can_delete_artefact user (owner_id a)); [| exact Hinv].
    cbn [snd set_db db]. intros k r Hr. cbn [artefacts] in Hr.
    apply lookup_delete_Some in Hr as [_ Hr]. exact (Hinv _ _ Hr).
  - unfold DatabaseManager.delete_user. cbn [snd set_db db].
    intros k r Hr. cbn [artefacts] in Hr.
    apply map_lookup_filter_Some in Hr as [Hr _]. exact (Hinv _ _ Hr).
  - intros a Hrow. destruct (Hinv _ _ Hrow) as (data & Hdec & Hsum).
    exists data. rewrite get_artefact_data_run, Hrow.
    unfold m, EncryptionManager.decrypt_data.
    cbn [encryption _key strategy decrypt AES256GCMStrategy.make].
    rewrite Hdec. rewrite bool_decide_eq_true_2 by congruence.
    cbn [sink fst]. split; [reflexivity | congruence].
Qed.

Lemma stored_payloads_stay_consistent_witness :
  payloads_consistent Demo.key
    (db (snd (ArtefactManager.update_artefact Demo.mgr 1 "b.txt" Demo.root Demo.w1)))
  /\ exists data,
       fst (ArtefactManager.get_artefact_data Demo.mgr 1 Demo.bob None Demo.w1)
       = Ok (Some data)
       /\ ChecksumManager.calculate_checksum data = checksum Demo.created.
Proof.
  assert (Hinv : payloads_consistent Demo.key (db Demo.w1)).
  { intros k r Hk.
    assert (Hc : artefacts (db Demo.w1) = {[ 1 := Demo.created ]})
      by (vm_compute; reflexivity).
    rewrite Hc in Hk. apply lookup_singleton_Some in Hk as [<- <-].
    exists (Bytes.of_string "hello"). split; vm_compute; reflexivity. }
  destruct (stored_payloads_stay_consistent Demo.key [Demo.stamper; Demo.logger]
              Demo.alice Demo.bob "b.txt" "tune" "score" 1 1 Demo.w1 eq_refl Hinv)
    as (_ & _ & _ & _ & Hget).
  destruct (stored_payloads_stay_consistent Demo.key [Demo.stamper; Demo.logger]
              Demo.alice Demo.root "b.txt" "tune" "score" 1 1 Demo.w1 eq_refl Hinv)
    as (_ & Hupd & _).
  split; [exact Hupd |].
  apply Hget. vm_compute. reflexivity.
Defined.

(** ** database.py: deleting a user *)

(** For a user identifier the database can look up (a signed 64-bit
    integer), [delete_user] removes the user row and every artefact owned by
    that identifier, and nothing else: an artefact is present afterwards exactly
    when it was present and has another owner, and every other user row is
    what it was; an artefact the identifier owned can afterwards be neither
    read nor retrieved by anyone.  The result tells whether the user row
    existed; the artefacts of the identifier are removed in either case. *)
Theorem delete_user_cascades m (reader : User) (output_path : option string)
    (uid : Z) w :
  in_int64 uid ->
  let out := DatabaseManager.delete_user uid w in
  fst out = Ok (bool_decide (is_Some (users (db w) !! uid)))
  /\ users (db (snd out)) !! uid = None
  /\ (forall k, k <> uid -> users (db (snd out)) !! k = users (db w) !! k)
  /\ (forall k a,
        artefacts (db (snd out)) !! k = Some a
        <-> artefacts (db w) !! k = Some a /\ owner_id a <> uid)
  /\ (forall k a,
        artefacts (db w) !! k = Some a -> owner_id a = uid ->
        fst (ArtefactManager.read_artefact m k reader (snd out)) = Ok None
        /\ fst (ArtefactManager.get_artefact_data m k reader output_path (snd out))
           = Ok None)
  /\ fs (snd out) = fs w.
Proof.
  intros _ out. subst out. unfold DatabaseManager.delete_user.
  cbn [fst snd set_db db fs users artefacts].
  split; [reflexivity |].
  split; [apply lookup_delete_eq |].
  split; [intros k Hk; apply lookup_delete_ne; congruence |].
  split; [intros k a; rewrite map_lookup_filter_Some; cbn [snd]; reflexivity |].
  split; [| reflexivity].
  intros k a Hrow Hown.
  assert (Hgone : filter (fun p : Z * artefact_row => owner_id (snd p) <> uid)
                    (artefacts (db w)) !! k = None).
  { apply map_lookup_filter_None. right. intros a' Hrow' Hne. cbn [snd] in Hne.
    rewrite Hrow in Hrow'. injection Hrow' as <-. contradiction. }
  rewrite get_artefact_data_run.
  unfold ArtefactManager.read_artefact, bind, DatabaseManager.get_artefact.
  cbn [set_db db artefacts]. rewrite Hgone. split; reflexivity.
Qed.

Lemma delete_user_cascades_witness :
  fst (ArtefactManager.get_artefact_data Demo.mgr 1 Demo.root None
         (snd (DatabaseManager.delete_user 1 Demo.w1))) = Ok None
  /\ artefacts (db (snd (DatabaseManager.delete_user 2 Demo.w1))) !! 1
     = Some Demo.created.
Proof.
  destruct (delete_user_cascades Demo.mgr Demo.root None 1 Demo.w1)
    as (_ & _ & _ & _ & Hone & _); [unfold in_int64; lia |].
  destruct (delete_user_cascades Demo.mgr Demo.root None 2 Demo.w1)
    as (_ & _ & _ & Htwo & _); [unfold in_int64; lia |].
  split.
  - apply (Hone 1 Demo.created); [vm_compute; reflexivity | reflexivity].
  - apply Htwo. split; [vm_compute; reflexivity | vm_compute; discriminate].
Defined.

(** ** user_manager.py: registration and login *)

Lemma get_user_after_insert (us : gmap Z user_row) (uid : Z) (row : user_row)
    (username : string) :
  us !! uid = None -> ur_username row = username ->
  ~ map_Exists (fun _ r => ur_username r = username) us ->
  head (filter (fun p : Z * user_row =>
                  Is_true (bool_decide (ur_username (snd p) = username)))
          (map_to_list (<[uid := row]> us)))
  = Some (uid, row).
Proof.
  intros Hfresh Hname Hnone.
  set (P := fun p : Z * user_row =>
              Is_true (bool_decide (ur_username (snd p) = username))).
  assert (Hrest : filter P (map_to_list us) = []).
  { destruct (filter P (map_to_list us)) as [| [k r] l] eqn:Ef; [reflexivity |].
    exfalso. apply Hnone.
    assert (Hin : (k, r) ∈ filter P (map_to_list us)) by (rewrite Ef; left).
    apply list_elem_of_filter in Hin as [HP Hin].
    apply elem_of_map_to_list in Hin. exists k, r. split; [exact Hin |].
    unfold P in HP. cbn [snd] in HP. apply bool_decide_unpack in HP. exact HP. }
  assert (Hperm : filter P (map_to_list (<[uid := row]> us)) ≡ₚ [(uid, row)]).
  { rewrite map_to_list_insert by assumption.
    rewrite filter_cons_True by (unfold P; cbn [snd]; apply bool_decide_pack; assumption).
    rewrite Hrest. reflexivity. }
  apply Permutation_singleton_r in Hperm. rewrite Hperm. reflexivity.
Qed.

(** A user that has just been registered logs in with the same password and
    gets back the same principal (same identifier, name, role and class);
    the class is [AdminUser] exactly when the role is ["admin"]; a password
    with another hash is refused; login does not change the world. *)
Theorem register_then_login (username password role : string) w (u : User) :
  ids_bounded (db w) ->
  fst (UserManager.register_user username password role w) = Ok u ->
  let w' := snd (UserManager.register_user username password role w) in
  UserManager.login username password w' = (Ok (Some u), w')
  /\ (class_of u = ClassAdminUser <-> _role u = "admin")
  /\ (forall other,
        UserManager.hash_password other <> UserManager.hash_password password ->
        UserManager.login username other w' = (Ok None, w')).
Proof.
  intros Hinv Hreg w'. subst w'.
  pose proof (ids_bounded_fresh _ Hinv) as [_ Hfresh].
  destruct (register_outcomes username password role w)
    as [[[e He] _] | (Hrole & Hnew & Hout)]; [rewrite He in Hreg; discriminate |].
  rewrite Hout in Hreg |- *. cbn [fst snd] in Hreg |- *. injection Hreg as <-.
  assert (Hget : forall w0,
            db w0 = Database
                      (<[users_seq (db w) + 1 :=
                           UserRow (users_seq (db w) + 1) username
                             (UserManager.hash_password password) role]> (users (db w)))
                      (users_seq (db w) + 1) (artefacts (db w)) (artefacts_seq (db w)) ->
            DatabaseManager.get_user username w0
            = (Ok (Some (UserRow (users_seq (db w) + 1) username
                           (UserManager.hash_password password) role)), w0)).
  { intros w0 Hdb. unfold DatabaseManager.get_user. rewrite Hdb. cbn [users].
    rewrite get_user_after_insert by (assumption || reflexivity). reflexivity. }
  split; [| split].
  - unfold UserManager.login, bind. rewrite Hget by reflexivity.
    cbn [ur_password_hash ur_role ur_user_id ur_username].
    rewrite bool_decide_eq_true_2 by reflexivity. cbn [negb].
    destruct (bool_decide (role = "admin")); reflexivity.
  - destruct (bool_decide (role = "admin")) eqn:Hadmin; cbn [class_of _role].
    + apply bool_decide_eq_true_1 in Hadmin. split; intros _; [assumption | reflexivity].
    + apply bool_decide_eq_false_1 in Hadmin. split; [discriminate | contradiction].
  - intros other Hother. unfold UserManager.login, bind. rewrite Hget by reflexivity.
    cbn [ur_password_hash].
    rewrite bool_decide_eq_false_2 by congruence. reflexivity.
Qed.

Lemma register_then_login_witness :
  UserManager.login "carol" "secret"
    (snd (UserManager.register_user "carol" "secret" "admin" Demo.w0))
  = (Ok (Some (MkUser ClassAdminUser 1 "carol" "admin")),
     snd (UserManager.register_user "carol" "secret" "admin" Demo.w0)).
Proof.
  assert (Hinv : ids_bounded (db Demo.w0)).
  { split; intros k r Hk; cbn in Hk; rewrite lookup_empty in Hk; discriminate. }
  apply (register_then_login "carol" "secret" "admin" Demo.w0
           (MkUser ClassAdminUser 1 "carol" "admin") Hinv).
  vm_compute. reflexivity.
Defined.

(** Registration refuses a role other than ["admin"] and ["user"], and a
    user name already present in the table, with a [ValueError], leaving the
    world exactly as it was; a failed login (unknown name) returns [None]. *)
Theorem registration_rejections (username password role : string) w :
  (role ∉ ["admin"; "user"] ->
     UserManager.register_user username password role w
     = (Raise (ValueError "role must be 'admin' or 'user'"), w))
  /\ (role ∈ ["admin"; "user"] ->
      (exists k r, users (db w) !! k = Some r /\ ur_username r = username) ->
      UserManager.register_user username password role w
      = (Raise (ValueError "username already exists"), w))
  /\ ((forall k r, users (db w) !! k = Some r -> ur_username r <> username) ->
      UserManager.login username password w = (Ok None, w)).
Proof.
  split; [| split].
  - intros Hrole. unfold UserManager.register_user.
    rewrite bool_decide_eq_false_2 by assumption. reflexivity.
  - intros Hrole Hdup. unfold UserManager.register_user.
    rewrite bool_decide_eq_true_2 by assumption. cbn [negb].
    unfold bind, DatabaseManager.create_user.
    rewrite (bool_decide_eq_true_2
               (map_Exists (fun _ r => ur_username r = username) (users (db w))))
      by exact Hdup.
    reflexivity.
  - intros Hnone. unfold UserManager.login, bind, DatabaseManager.get_user.
    set (P := fun p : Z * user_row =>
                Is_true (bool_decide (ur_username (snd p) = username))).
    assert (Hnil : filter P (map_to_list (users (db w))) = []).
    { destruct (filter P (map_to_list (users (db w)))) as [| [k r] l] eqn:Ef;
        [reflexivity |].
      exfalso.
      assert (Hin : (k, r) ∈ filter P (map_to_list (users (db w))))
        by (rewrite Ef; left).
      apply list_elem_of_filter in Hin as [HP Hin].
      apply elem_of_map_to_list in Hin.
      unfold P in HP. cbn [snd] in HP. apply bool_decide_unpack in HP.
      exact (Hnone k r Hin HP). }
    rewrite Hnil. reflexivity.
Qed.

Lemma registration_rejections_witness :
  UserManager.register_user "carol" "secret" "root" Demo.w0
  = (Raise (ValueError "role must be 'admin' or 'user'"), Demo.w0)
  /\ UserManager.register_user "carol" "other" "user"
       (snd (UserManager.register_user "carol" "secret" "admin" Demo.w0))
     = (Raise (ValueError "username already exists"),
        snd (UserManager.register_user "carol" "secret" "admin" Demo.w0))
  /\ UserManager.login "carol" "secret" Demo.w0 = (Ok None, Demo.w0).
Proof.
  split; [| split].
  - apply (proj1 (registration_rejections "carol" "secret" "root" Demo.w0)).
    apply (bool_decide_unpack _). vm_compute. exact I.
  - apply (proj1 (proj2 (registration_rejections "carol" "other" "user"
                           (snd (UserManager.register_user "carol" "secret" "admin"
                                   Demo.w0))))).
    + apply (bool_decide_unpack _). vm_compute. exact I.
    + exists 1, (UserRow 1 "carol" (UserManager.hash_password "secret") "admin").
      split; [vm_compute; reflexivity | reflexivity].
  - apply (proj2 (proj2 (registration_rejections "carol" "secret" "user" Demo.w0))).
    intros k r Hk. cbn in Hk. rewrite lookup_empty in Hk. discriminate.
Defined.

(** ** checksum.py: the digest of a file *)

(** [calculate_file_checksum] returns the digest of the content of a file,
    [None] for a directory and for a missing path without NUL character,
    and never changes the world;
    when [create_artefact] returns an identifier, the digest it stored is
    the one [calculate_file_checksum] gives for the source path, before and
    after the upload, and [verify_checksum] accepts the file content against
    it. *)
Theorem file_checksum_agrees_with_upload m owner (path name type : string) w :
  (forall data, fs w !! path = Some (FsFile data) ->
     ChecksumManager.calculate_file_checksum path w
     = (Ok (Some (ChecksumManager.calculate_checksum data)), w))
  /\ ((fs w !! path = None /\ nul_free path) \/ fs w !! path = Some FsDir ->
      ChecksumManager.calculate_file_checksum path w = (Ok None, w))
  /\ (forall id,
        fst (ArtefactManager.create_artefact m owner path name type w) = Ok (Some id) ->
        let w' := snd (ArtefactManager.create_artefact m owner path name type w) in
        exists data stored,
          fs w !! path = Some (FsFile data)
          /\ (checksum <$> artefacts (db w') !! id) = Some stored
          /\ fst (ChecksumManager.calculate_file_checksum path w) = Ok (Some stored)
          /\ fst (ChecksumManager.calculate_file_checksum path w') = Ok (Some stored)
          /\ ChecksumManager.verify_checksum data stored = true).
Proof.
  split; [| split].
  - intros data Hfile.
    unfold ChecksumManager.calculate_file_checksum, try_except, bind, read_file.
    rewrite Hfile. reflexivity.
  - intros [[Hnone _] | Hdir];
      unfold ChecksumManager.calculate_file_checksum, try_except, bind, read_file.
    + rewrite Hnone. reflexivity.
    + rewrite Hdir. reflexivity.
  - intros id Hid w'. subst w'.
    destruct (create_outcomes m owner path name type w)
      as [[Hno _] | (data & payload & p & Hfile & _ & _ & Hout)];
      [exfalso; exact (Hno id Hid) |].
    rewrite Hout in Hid |- *. cbn [fst snd] in Hid |- *. injection Hid as <-.
    exists data, (ChecksumManager.calculate_checksum data).
    split; [exact Hfile |].
    split; [unfold after_create; cbn [db artefacts]; rewrite lookup_insert_eq;
            reflexivity |].
    unfold ChecksumManager.calculate_file_checksum, try_except, bind, read_file.
    unfold after_create at 1. cbn [fs]. rewrite Hfile. cbn [fst].
    split; [reflexivity |]. split; [reflexivity |].
    unfold ChecksumManager.verify_checksum. apply bool_decide_eq_true_2. reflexivity.
Qed.

Lemma file_checksum_agrees_with_upload_witness :
  ChecksumManager.calculate_file_checksum "a.txt" Demo.w0
  = (Ok (Some (ChecksumManager.calculate_checksum (Bytes.of_string "hello"))), Demo.w0)
  /\ ChecksumManager.calculate_file_checksum "music" Demo.w0 = (Ok None, Demo.w0)
  /\ ChecksumManager.calculate_file_checksum "none.txt" Demo.w0 = (Ok None, Demo.w0)
  /\ exists data stored,
       fs Demo.w0 !! "a.txt" = Some (FsFile data)
       /\ (checksum <$> artefacts (db Demo.w1) !! 1) = Some stored
       /\ fst (ChecksumManager.calculate_file_checksum "a.txt" Demo.w0) = Ok (Some stored)
       /\ fst (ChecksumManager.calculate_file_checksum "a.txt" Demo.w1) = Ok (Some stored)
       /\ ChecksumManager.verify_checksum data stored = true.
Proof.
  destruct (file_checksum_agrees_with_upload Demo.mgr Demo.alice "a.txt" "song" "lyrics"
              Demo.w0) as (Hfile & _ & Hup).
  destruct (file_checksum_agrees_with_upload Demo.mgr Demo.alice "music" "song" "lyrics"
              Demo.w0) as (_ & Hdir & _).
  destruct (file_checksum_agrees_with_upload Demo.mgr Demo.alice "none.txt" "song"
              "lyrics" Demo.w0) as (_ & Hmiss & _).
  split; [apply Hfile; vm_compute; reflexivity |].
  split; [apply Hdir; right; vm_compute; reflexivity |].
  split; [apply Hmiss; left; split;
          [vm_compute; reflexivity | apply (bool_decide_unpack _); vm_compute; exact I] |].
  apply (Hup 1). vm_compute. reflexivity.
Defined.

(** ** encryption.py: constructing a manager and installing a key *)

(** Constructing a manager succeeds exactly for the algorithm name
    ["AES256GCM"] and gives a manager without a key; once a key has been
    installed by [generate_key], by [derive_key_from_password] or by a
    successful [set_key], [get_key] returns it and [decrypt_data] returns
    the data from whatever payload [encrypt_data] produced for it. *)
Theorem fresh_manager_round_trips
    (name password : string) (key data : list byte) (e e' : entropy_pool) :
  (name <> "AES256GCM" ->
     EncryptionManager.new name = Raise (ValueError "encryption type not supported"))
  /\ (forall m0, EncryptionManager.new name = Ok m0 ->
        name = "AES256GCM"
        /\ EncryptionManager.get_key m0 = None
        /\ (forall m1,
              (m1 = snd (fst (EncryptionManager.generate_key m0 e))
               \/ m1 = snd (EncryptionManager.derive_key_from_password password m0)
               \/ EncryptionManager.set_key key m0 = Ok m1) ->
              (exists k, EncryptionManager.get_key m1 = Some k
                         /\ List.length k = 32%nat)
              /\ exists payload,
                   fst (EncryptionManager.encrypt_data m1 data e') = Ok payload
                   /\ EncryptionManager.decrypt_data m1 payload = Ok data)).
Proof.
  split.
  - intros Hname. unfold EncryptionManager.new, EncryptionFactory.create_algorithm.
    rewrite bool_decide_eq_false_2 by assumption. reflexivity.
  - intros m0 Hnew. unfold EncryptionManager.new, EncryptionFactory.create_algorithm in Hnew.
    destruct (bool_decide (name = "AES256GCM")) eqn:Hname; [| discriminate].
    apply bool_decide_eq_true_1 in Hname. injection Hnew as <-.
    split; [assumption |]. split; [reflexivity |].
    intros m1 Hm1.
    assert (Hkey : exists k, m1 = EncMgr AES256GCMStrategy.make (Some k)
                             /\ List.length k = 32%nat).
    { destruct Hm1 as [-> | [-> | Hset]].
      - unfold EncryptionManager.generate_key.
        destruct (urandom 32 e) as [k e1] eqn:Eu. cbn [fst snd strategy].
        exists k. split; [reflexivity |].
        change k with (fst (k, e1)). rewrite <- Eu. apply length_urandom.
      - unfold EncryptionManager.derive_key_from_password. cbn [snd strategy].
        eexists. split; [reflexivity |]. rewrite length_take, length_pbkdf2. reflexivity.
      - unfold EncryptionManager.set_key in Hset.
        destruct (Nat.eqb_spec (List.length key) 32) as [Hlen | Hlen];
          cbn [negb strategy] in Hset; [| discriminate].
        injection Hset as <-. exists key. split; [reflexivity | assumption]. }
    destruct Hkey as (k & -> & Hlen).
    split; [exists k; split; [reflexivity | assumption] |].
    destruct (encrypt_decrypt_round_trip_at data k e' Hlen) as (payload & Henc & Hdec).
    exists payload. split; assumption.
Qed.

Lemma fresh_manager_round_trips_witness :
  EncryptionManager.new "DES" = Raise (ValueError "encryption type not supported")
  /\ exists payload,
       fst (EncryptionManager.encrypt_data
              (snd (fst (EncryptionManager.generate_key
                           (EncMgr AES256GCMStrategy.make None)
                           (EntropyPool Demo.tape 0))))
              (Bytes.of_string "hello") (EntropyPool Demo.tape 32)) = Ok payload
       /\ EncryptionManager.decrypt_data
            (snd (fst (EncryptionManager.generate_key
                         (EncMgr AES256GCMStrategy.make None)
                         (EntropyPool Demo.tape 0)))) payload
          = Ok (Bytes.of_string "hello").
Proof.
  destruct (fresh_manager_round_trips "DES" "secret" Demo.key (Bytes.of_string "hello")
              (EntropyPool Demo.tape 0) (EntropyPool Demo.tape 32)) as [Hbad _].
  destruct (fresh_manager_round_trips "AES256GCM" "secret" Demo.key
              (Bytes.of_string "hello")
              (EntropyPool Demo.tape 0) (EntropyPool Demo.tape 32)) as [_ Hgood].
  split; [apply Hbad; discriminate |].
  destruct (Hgood (EncMgr AES256GCMStrategy.make None) eq_refl) as (_ & _ & Hround).
  destruct (Hround (snd (fst (EncryptionManager.generate_key
                                (EncMgr AES256GCMStrategy.make None)
                                (EntropyPool Demo.tape 0))))) as [_ Hpay].
  - left. reflexivity.
  - exact Hpay.
Defined.

(** ** artefact_manager.py: operations without a key *)

(** When the encryption manager has no key, uploading or updating from a
    readable file fails cleanly: the result is [None] / [False], the
    database, the file system and the entropy pool are what they were, no
    observer is called and the console receives the error line; retrieving
    an existing artefact returns [None] with the retrieval error line. *)
Theorem operations_without_key
    m (owner user : User) (path name type : string) (id : Z)
    (a : artefact_row) (data : list byte) (output_path : option string) w :
  _key (encryption m) = None ->
  fs w !! path = Some (FsFile data) ->
  (type ∈ ["lyrics"; "score"; "audio"] ->
     ArtefactManager.create_artefact m owner path name type w
     = (Ok None,
        set_console (console w ++ ["Error creating artefact: need to set key first"]) w))
  /\ (artefacts (db w) !! id = Some a ->
      can_modify_artefact user (owner_id a) = true ->
      ArtefactManager.update_artefact m id path user w
      = (Ok false,
         set_console (console w ++ ["Error updating artefact: need to set key first"]) w))
  /\ (artefacts (db w) !! id = Some a ->
      ArtefactManager.get_artefact_data m id user output_path w
      = (Ok None,
         set_console (console w ++ ["Error retrieving artefact: need to set key first"])
           w)).
Proof.
  intros Hnokey Hfile.
  assert (Henc : EncryptionManager.encrypt_data (encryption m) data (pool w)
                 = (Raise (ValueError "need to set key first"), pool w))
    by (unfold EncryptionManager.encrypt_data; rewrite Hnokey; reflexivity).
  assert (Hsame : set_pool (pool w) w = w) by (destruct w; reflexivity).
  split; [| split].
  - intros Htype. rewrite create_artefact_run.
    rewrite bool_decide_eq_true_2 by assumption. rewrite Hfile, Henc, Hsame.
    reflexivity.
  - intros Hrow Hmay. rewrite update_artefact_run, Hrow, Hmay, Hfile, Henc, Hsame.
    reflexivity.
  - intros Hrow. rewrite get_artefact_data_run, Hrow.
    unfold EncryptionManager.decrypt_data. rewrite Hnokey. reflexivity.
Qed.

Lemma operations_without_key_witness :
  ArtefactManager.create_artefact (ArtMgr (EncMgr AES256GCMStrategy.make None) [])
    Demo.alice "b.txt" "tune" "score" Demo.w1
  = (Ok None,
     set_console (console Demo.w1 ++ ["Error creating artefact: need to set key first"])
       Demo.w1)
  /\ ArtefactManager.get_artefact_data (ArtMgr (EncMgr AES256GCMStrategy.make None) [])
       1 Demo.alice None Demo.w1
     = (Ok None,
        set_console
          (console Demo.w1 ++ ["Error retrieving artefact: need to set key first"])
          Demo.w1).
Proof.
  destruct (operations_without_key (ArtMgr (EncMgr AES256GCMStrategy.make None) [])
              Demo.alice Demo.alice "b.txt" "tune" "score" 1 Demo.created
              (Bytes.of_string "world") None Demo.w1) as (Hcreate & _ & Hget).
  - reflexivity.
  - vm_compute. reflexivity.
  - split.
    + apply Hcreate. apply (bool_decide_unpack _). vm_compute. exact I.
    + apply Hget. vm_compute. reflexivity.
Defined.

(** ** artefact_manager.py: registering observers *)

(** Registering one more observer changes nothing of what an update does to
    its result, the database, the file system, the console, the clock or the
    entropy pool; the only difference is that after a successful update the
    new observer has been called once, after all observers registered
    before it, with the same identifier and timestamp. *)
Theorem added_observer_is_notified_last m (o : observer) id path user w :
  let m' := ArtefactManager.add_observer o m in
  let out := ArtefactManager.update_artefact m id path user w in
  let out' := ArtefactManager.update_artefact m' id path user w in
  fst out' = fst out
  /\ db (snd out') = db (snd out)
  /\ fs (snd out') = fs (snd out)
  /\ console (snd out') = console (snd out)
  /\ ticks (snd out') = ticks (snd out)
  /\ pool (snd out') = pool (snd out)
  /\ (fst out = Ok true ->
        notified (snd out')
        = notified (snd out) ++ [Notification o id (clock w (S (ticks w)))])
  /\ (fst out <> Ok true -> notified (snd out') = notified w).
Proof.
  intros m' out out'. subst m' out out'. rewrite !update_artefact_run.
  unfold ArtefactManager.add_observer. cbn [encryption].
  assert (Hsame : forall (r : result bool) (w1 : world),
            r <> Ok true ->
            notified w1 = notified w ->
            r = r /\ db w1 = db w1 /\ fs w1 = fs w1 /\ console w1 = console w1
            /\ ticks w1 = ticks w1 /\ pool w1 = pool w1
            /\ (r = Ok true ->
                notified w1
                = notified w1 ++ [Notification o id (clock w (S (ticks w)))])
            /\ (r <> Ok true -> notified w1 = notified w)).
  { intros r w1 Hr Hn. repeat split; [contradiction | intros _; exact Hn]. }
  destruct (artefacts (db w) !! id) as [a |];
    [| apply Hsame; [discriminate | reflexivity]].
  destruct (can_modify_artefact user (owner_id a));
    [| apply Hsame; [discriminate | reflexivity]].
  destruct (fs w !! path) as [[data |] |];
    [| apply Hsame; [discriminate | reflexivity] ..].
  destruct (EncryptionManager.encrypt_data (encryption m) data (pool w))
    as [[payload | e] p]; [| apply Hsame; [discriminate | reflexivity]].
  cbn [fst snd]. unfold after_update. cbn [db fs console ticks pool notified observers].
  repeat split.
  - intros _. rewrite map_app, app_assoc. reflexivity.
  - intros H. exfalso. apply H. reflexivity.
Qed.

Lemma added_observer_is_notified_last_witness :
  notified (snd (ArtefactManager.update_artefact
                   (ArtefactManager.add_observer (Observer TimestampObserver 2) Demo.mgr)
                   1 "b.txt" Demo.alice Demo.w1))
  = notified (snd (ArtefactManager.update_artefact Demo.mgr 1 "b.txt" Demo.alice Demo.w1))
    ++ [Notification (Observer TimestampObserver 2) 1 (clock Demo.w1 (S (ticks Demo.w1)))]
  /\ notified (snd (ArtefactManager.update_artefact
                      (ArtefactManager.add_observer (Observer TimestampObserver 2)
                         Demo.mgr)
                      1 "b.txt" Demo.bob Demo.w1))
     = notified Demo.w1.
Proof.
  destruct (added_observer_is_notified_last Demo.mgr (Observer TimestampObserver 2) 1
              "b.txt" Demo.alice Demo.w1) as (_ & _ & _ & _ & _ & _ & Hok & _).
  destruct (added_observer_is_notified_last Demo.mgr (Observer TimestampObserver 2) 1
              "b.txt" Demo.bob Demo.w1) as (_ & _ & _ & _ & _ & _ & _ & Hko).
  split.
  - apply Hok. vm_compute. reflexivity.
  - apply Hko. vm_compute. discriminate.
Defined.
